(** * Volume adjustment, execution classification and close rounding of the
    single-connection trade copier (trade_copier_single.py), with the
    configuration constants of config.py, the multiplier selection of
    config_helper.py and the balance-based sizing of trade_copier.py.

    Modelling conventions.
    - Python ints are [Z]; Python floats are modelled as exact rationals [Q]
      (the concrete inputs used below are exactly representable as binary
      floats, so the float results coincide there).
    - [int(x)] on a float truncates toward zero: [py_int].
    - Exceptions are explicit: a call either returns [Ok v] or raises [Exc e].
    - The Python call stack is bounded: recursion is modelled with a [fuel]
      argument, the remaining stack depth; running out raises RecursionError.
    - dicts are stdpp [gmap]s; the hard-coded literal dicts of the symbol
      mapping are association lists looked up front to back. *)

From Stdlib Require Import ZArith QArith Qpower Qround Qminmax String Ascii List Bool Lia.
From stdpp Require Import base gmap strings pretty.
Import ListNotations.

Open Scope Z_scope.

(** ** Python runtime fragments *)

Inductive py_exc :=
| AttributeError
| RecursionError
| ZeroDivisionError.

Inductive pyres (A : Type) :=
| Ok (a : A)
| Exc (e : py_exc).
Arguments Ok {A} a.
Arguments Exc {A} e.

(** [int(q)] for a float [q]: truncation toward zero. *)
Definition py_int (q : Q) : Z := Z.quot (Qnum q) (Zpos (Qden q)).

(** Python truthiness of an optional float ([None] and [0.0] are falsy). *)
Definition truthy_q (o : option Q) : bool :=
  match o with
  | Some q => negb (Qeq_bool q 0)
  | None => false
  end.

(** Whitespace recognised by [str.strip()] (ASCII part). *)
Definition is_py_space (c : ascii) : bool :=
  let n := nat_of_ascii c in
  ((9 <=? n) && (n <=? 13))%nat || ((28 <=? n) && (n <=? 31))%nat || (n =? 32)%nat.

Fixpoint lstrip (l : list ascii) : list ascii :=
  match l with
  | [] => []
  | c :: r => if is_py_space c then lstrip r else l
  end.

(** [s.strip()] *)
Definition py_strip (s : string) : list ascii :=
  rev (lstrip (rev (lstrip (list_ascii_of_string s)))).

(** ** config.py *)

Definition MIN_LOT_SIZE : Z := 100.
Definition MAX_LOT_MULTIPLIER : Q := 2.
Definition DYNAMIC_PIP_VOLUME_RATIO : Q := 1 # 2.
Definition DEFAULT_LOT_MULTIPLIER : Q := 1 # 2.
Definition GLOBAL_LOT_MULTIPLIER : option Q := None.

Definition LOT_SIZE_MULTIPLIERS : list (string * Q) := [
  ("EURUSD", 1#2); ("GBPUSD", 1#2); ("USDJPY", 1#2); ("USDCHF", 1#2);
  ("AUDUSD", 1#2); ("USDCAD", 1#2); ("NZDUSD", 1#2); ("EURGBP", 1#2);
  ("EURJPY", 1#2); ("GBPJPY", 1#2);
  ("XAUUSD", 1#4); ("GOLD", 1#4); ("XAGUSD", 1#2); ("SILVER", 1#2);
  ("US30", 1#10); ("SPX500", 1#10); ("NAS100", 1#10); ("GER30", 1#10);
  ("UK100", 1#10); ("JPN225", 1#10);
  ("CRUDE", 1#2); ("BRENT", 1#2); ("NGAS", 3#10);
  ("BTCUSD", 1#10); ("ETHUSD", 1#5); ("LTCUSD", 3#10); ("XRPUSD", 1#2)
]%string.

(** [d.get(k)] on a dict literal with string keys. *)
Fixpoint str_get {V : Type} (d : list (string * V)) (k : string) : option V :=
  match d with
  | [] => None
  | (k', v) :: r => if String.eqb k k' then Some v else str_get r k
  end.

Fixpoint z_get {V : Type} (d : list (Z * V)) (k : Z) : option V :=
  match d with
  | [] => None
  | (k', v) :: r => if Z.eqb k k' then Some v else z_get r k
  end.

(** config_helper.calculate_slave_volume, lines 208-211: the global override
    wins, else the per-instrument table, else the default multiplier. *)
Definition select_multiplier (symbol : string) : Q :=
  match GLOBAL_LOT_MULTIPLIER with
  | Some m => m
  | None =>
      match str_get LOT_SIZE_MULTIPLIERS symbol with
      | Some m => m
      | None => DEFAULT_LOT_MULTIPLIER
      end
  end.

(** ** Symbol id / name mapping (_get_symbol_id, _get_symbol_name) *)

Definition symbol_map : list (string * Z) := [
  ("EURUSD", 1); ("GBPUSD", 2); ("USDJPY", 3); ("USDCHF", 4);
  ("AUDUSD", 5); ("USDCAD", 6); ("NZDUSD", 7);
  ("XAUUSD", 41); ("GOLD", 41);
  ("XAGUSD", 42); ("SILVER", 42);
  ("BTCUSD", 43); ("ETHUSD", 44);
  ("US30", 45); ("SPX500", 46); ("NAS100", 47);
  ("CRUDE", 48); ("BRENT", 49)
]%string.

(** [symbol_map.get(symbol_name, symbol_id if isinstance(symbol_name, int) else 1)]:
    names are strings, so the default is 1. *)
Definition _get_symbol_id (symbol_name : string) : Z :=
  match str_get symbol_map symbol_name with
  | Some i => i
  | None => 1
  end.

Definition id_to_symbol : list (Z * string) := [
  (1, "EURUSD"); (2, "GBPUSD"); (3, "USDJPY"); (4, "USDCHF");
  (5, "AUDUSD"); (6, "USDCAD"); (7, "NZDUSD");
  (41, "XAUUSD"); (42, "XAGUSD");
  (43, "BTCUSD"); (44, "ETHUSD");
  (45, "US30"); (46, "SPX500"); (47, "NAS100");
  (48, "CRUDE"); (49, "BRENT")
]%string.

(** [id_to_symbol.get(symbol_id, f"SYMBOL_{symbol_id}")] *)
Definition _get_symbol_name (symbol_id : Z) : string :=
  match z_get id_to_symbol symbol_id with
  | Some s => s
  | None => String.append "SYMBOL_" (pretty symbol_id)
  end.

Definition mapped_symbol_ids : list Z := map fst id_to_symbol.

(** ** Reference data and copier state *)

Record SymbolData := {
  sd_symbol_id : Z;
  sd_symbol_name : string;
  sd_digits : Z;
  pip_position : Z;
  lot_size : Z;
  base_asset_id : Z;
  quote_asset_id : Z;
  current_bid : Q;
  current_ask : Q;
  volume_step : Z
}.

Record AssetData := {
  asset_id : Z;
  asset_name : string;
  asset_digits : Z
}.

(** The fields of [SingleConnectionTradeCopier] the core reads and writes. *)
Record Copier := {
  master_symbols : gmap Z SymbolData;
  slave_symbols : gmap Z SymbolData;
  master_assets : gmap Z AssetData;
  slave_assets : gmap Z AssetData;
  master_deposit_asset_id : option Z;
  slave_deposit_asset_id : option Z;
  master_data_loaded : bool;
  slave_data_loaded : bool;
  slave_authorized : bool;
  pip_values_cache : gmap Z (Q * Q);
  symbol_volume_ratio : gmap Z Q
}.

Definition set_pip_values_cache (st : Copier) (c : gmap Z (Q * Q)) : Copier :=
  {| master_symbols := master_symbols st; slave_symbols := slave_symbols st;
     master_assets := master_assets st; slave_assets := slave_assets st;
     master_deposit_asset_id := master_deposit_asset_id st;
     slave_deposit_asset_id := slave_deposit_asset_id st;
     master_data_loaded := master_data_loaded st;
     slave_data_loaded := slave_data_loaded st;
     slave_authorized := slave_authorized st;
     pip_values_cache := c; symbol_volume_ratio := symbol_volume_ratio st |}.

Definition set_symbol_volume_ratio (st : Copier) (r : gmap Z Q) : Copier :=
  {| master_symbols := master_symbols st; slave_symbols := slave_symbols st;
     master_assets := master_assets st; slave_assets := slave_assets st;
     master_deposit_asset_id := master_deposit_asset_id st;
     slave_deposit_asset_id := slave_deposit_asset_id st;
     master_data_loaded := master_data_loaded st;
     slave_data_loaded := slave_data_loaded st;
     slave_authorized := slave_authorized st;
     pip_values_cache := pip_values_cache st; symbol_volume_ratio := r |}.

(** [account_type == "master"] selects the master tables, anything else the
    slave tables. *)
Inductive account_type := Master | Slave.

Definition acct_symbols (st : Copier) (acct : account_type) : gmap Z SymbolData :=
  match acct with Master => master_symbols st | Slave => slave_symbols st end.

Definition acct_assets (st : Copier) (acct : account_type) : gmap Z AssetData :=
  match acct with Master => master_assets st | Slave => slave_assets st end.

Definition acct_deposit_asset_id (st : Copier) (acct : account_type) : option Z :=
  match acct with
  | Master => master_deposit_asset_id st
  | Slave => slave_deposit_asset_id st
  end.

(** ** _calculate_pip_value (lines 857-925).  [None] is Python's [None];
    the division by the mid price is guarded because a ZeroDivisionError would
    be caught by the method's own handler and turned into [None]. *)
Definition _calculate_pip_value (st : Copier) (symbol_id : Z) (acct : account_type)
  : option Q :=
  let symbol_dict := acct_symbols st acct in
  let asset_dict := acct_assets st acct in
  let deposit_asset_id := acct_deposit_asset_id st acct in
  match symbol_dict !! symbol_id with
  | None => None
  | Some symbol_data =>
      match deposit_asset_id with
      | None => None
      | Some dep =>
          if Z.eqb dep 0 then None else
          match asset_dict !! dep with
          | None => None
          | Some deposit_asset =>
              let quote_asset :=
                match asset_dict !! quote_asset_id symbol_data with
                | Some a => a
                | None => deposit_asset
                end in
              let pip_size := (1 / Qpower (inject_Z 10) (pip_position symbol_data))%Q in
              if Z.eqb (asset_id quote_asset) (asset_id deposit_asset)
              then Some (pip_size * inject_Z (lot_size symbol_data))%Q
              else if Qeq_bool (current_bid symbol_data) 0
                      || Qeq_bool (current_ask symbol_data) 0
              then None
              else
                let mid_price :=
                  ((current_bid symbol_data + current_ask symbol_data) / 2)%Q in
                if Qeq_bool mid_price 0 then None
                else Some (pip_size / mid_price * inject_Z (lot_size symbol_data))%Q
          end
      end
  end.

(** ** Volume adjustment *)

(** [self._calculate_simple_multiplier_volume(...)]: the class defines no
    method of that name, so the attribute lookup raises. *)
Definition _calculate_simple_multiplier_volume (st : Copier) (symbol : string)
  (original_volume : Z) : Copier * pyres Z :=
  (st, Exc AttributeError).

(** _calculate_dynamic_pip_volume (lines 548-614).  The cached branch is
    commented out in the source, so every call recomputes both pip values.
    The whole body runs under [try ... except Exception], whose handler calls
    the fallback again. *)
Fixpoint _calculate_dynamic_pip_volume (fuel : nat) (st : Copier) (symbol : string)
  (original_volume : Z) : Copier * pyres Z :=
  match fuel with
  | O => (st, Exc RecursionError)
  | S fuel' =>
      let symbol_id := _get_symbol_id symbol in
      let master_pip_value := _calculate_pip_value st symbol_id Master in
      let slave_pip_value := _calculate_pip_value st symbol_id Slave in
      let body :=
        if truthy_q master_pip_value && truthy_q slave_pip_value then
          let cache := <[symbol_id := (default 0%Q master_pip_value,
                                       default 0%Q slave_pip_value)]>
                         (pip_values_cache st) in
          _calculate_dynamic_pip_volume fuel' (set_pip_values_cache st cache)
            symbol original_volume
        else _calculate_simple_multiplier_volume st symbol original_volume in
      match body with
      | (st', Ok v) => (st', Ok v)
      | (st', Exc _) => _calculate_simple_multiplier_volume st' symbol original_volume
      end
  end.

(** _calculate_adjusted_volume (lines 537-546). *)
Definition _calculate_adjusted_volume (fuel : nat) (st : Copier) (symbol : string)
  (original_volume : Z) : Copier * pyres Z :=
  match _calculate_dynamic_pip_volume fuel st symbol original_volume with
  | (st', Ok v) => (st', Ok v)
  | (st', Exc _) =>
      (st', Ok (Z.max MIN_LOT_SIZE (py_int (inject_Z original_volume * (1#2)))))
  end.

(** trade_copier.py, _calculate_adjusted_volume (lines 384-404): sizing from
    the slave balance, with a floor of 1000. *)
Definition _calculate_adjusted_volume_balance (lot_percentage : Q)
  (original_volume : Z) (slave_balance : Q) : Z :=
  let risk_amount := (slave_balance * lot_percentage)%Q in
  let micro_lots_per_dollar := 10%Z in
  let adjusted_volume := py_int (risk_amount * inject_Z micro_lots_per_dollar) in
  let min_volume := 1000 in
  Z.max adjusted_volume min_volume.

(** ** _copy_to_slave (lines 495-535) *)

Record TradeSignal := {
  ts_symbol : string;
  ts_side : string;
  ts_volume : Z;
  ts_symbol_id : option Z
}.

(** The fields of the [ProtoOANewOrderReq] that is sent. *)
Record NewOrderReq := {
  nor_symbolId : Z;
  nor_buy : bool;
  nor_volume : Z
}.

Definition _copy_to_slave (fuel : nat) (st : Copier) (trade_signal : TradeSignal)
  : Copier * option NewOrderReq :=
  if negb (slave_authorized st) then (st, None) else
  match _calculate_adjusted_volume fuel st (ts_symbol trade_signal) (ts_volume trade_signal) with
  | (st1, Exc _) => (st1, None)
  | (st1, Ok adjusted_volume) =>
      let st2 :=
        if negb (Z.eqb (ts_volume trade_signal) 0) then
          let ratio := (inject_Z adjusted_volume / inject_Z (ts_volume trade_signal))%Q in
          set_symbol_volume_ratio st1
            (<[_get_symbol_id (ts_symbol trade_signal) := ratio]> (symbol_volume_ratio st1))
        else st1 in
      let symbol_id_to_use :=
        match ts_symbol_id trade_signal with
        | Some i => if Z.eqb i 0 then _get_symbol_id (ts_symbol trade_signal) else i
        | None => _get_symbol_id (ts_symbol trade_signal)
        end in
      (st2, Some {| nor_symbolId := symbol_id_to_use;
                    nor_buy := String.eqb (ts_side trade_signal) "BUY";
                    nor_volume := adjusted_volume |})
  end.

(** ** _handle_positions_for_close (lines 431-493) *)

Record TradeData := {
  td_symbolId : Z;
  td_volume : Z
}.

Record Position := {
  positionId : Z;
  pos_tradeData : option TradeData
}.

(** The fields of the [ProtoOAClosePositionReq] that is sent. *)
Record ClosePositionReq := {
  cpr_positionId : Z;
  cpr_volume : Z
}.

(** The first reconciled position whose [tradeData.symbolId] matches. *)
Fixpoint find_position_to_close (positions : list Position) (symbol_id : Z)
  : option (Position * TradeData) :=
  match positions with
  | [] => None
  | p :: r =>
      match pos_tradeData p with
      | Some td => if Z.eqb (td_symbolId td) symbol_id then Some (p, td)
                   else find_position_to_close r symbol_id
      | None => find_position_to_close r symbol_id
      end
  end.

(** Lines 461-463: the slave's volume step, [MIN_LOT_SIZE] when the symbol is
    not loaded or the step is not positive. *)
Definition close_step (slave_syms : gmap Z SymbolData) (symbol_id : Z) : Z :=
  let step_raw_units :=
    match slave_syms !! symbol_id with
    | Some sd => volume_step sd
    | None => MIN_LOT_SIZE
    end in
  if step_raw_units <=? 0 then MIN_LOT_SIZE else step_raw_units.

(** Lines 458 and 468-473. *)
Definition compute_volume_to_close (ratio : Q) (step_raw_units : Z)
  (master_close_volume current_volume : Z) : Z :=
  let raw_volume_to_close := py_int (inject_Z master_close_volume * ratio) in
  let volume_to_close := (raw_volume_to_close / step_raw_units) * step_raw_units in
  if current_volume - volume_to_close <=? step_raw_units then current_volume
  else volume_to_close.

(** The close request sent to the slave, if any. *)
Definition _handle_positions_for_close (st : Copier) (positions : list Position)
  (symbol_id master_close_volume : Z) : option ClosePositionReq :=
  match find_position_to_close positions symbol_id with
  | None => None
  | Some (p, td) =>
      let position_id := positionId p in
      let current_volume := td_volume td in
      if negb (Z.eqb position_id 0) && negb (Z.eqb current_volume 0) then
        let ratio := default 1%Q (symbol_volume_ratio st !! symbol_id) in
        let step_raw_units := close_step (slave_symbols st) symbol_id in
        Some {| cpr_positionId := position_id;
                cpr_volume := compute_volume_to_close ratio step_raw_units
                                master_close_volume current_volume |}
      else None
  end.

(** ** Execution classification in _handle_execution_event (lines 324-356) *)

Record Order := {
  closingOrder : bool
}.

(** [closePositionDetail] is [None] when the attribute is absent or [None],
    otherwise [Some (str(closePositionDetail))]. *)
Record Deal := {
  deal_symbolId : Z;
  deal_volume : Z;
  closePositionDetail : option string
}.

Record ExecutionEvent := {
  executionType : Z;
  ev_order : option Order;
  ev_deal : option Deal
}.

Inductive trade_kind := Close | Open.

(** [is_closing_order] after lines 328-356. *)
Definition is_closing_order (ev : ExecutionEvent) : bool :=
  let from_order :=
    match ev_order ev with
    | Some o => closingOrder o
    | None => false
    end in
  match ev_deal ev with
  | Some d =>
      match closePositionDetail d with
      | Some s => if negb (bool_decide (py_strip s = [])) then true else from_order
      | None => from_order
      end
  | None => from_order
  end.

Definition classify_fill (ev : ExecutionEvent) : trade_kind :=
  if is_closing_order ev then Close else Open.

(** ** The volume rules as the specification words them

    These two definitions follow the specification (section 4.3), not the
    source; they are the reference the source's behaviour is compared with. *)

(** [round(q)], half-up. *)
Definition spec_round (q : Q) : Z := Qfloor (q + (1#2)).

(** [clamp(m, 0.001, maxLotMultiplier)] *)
Definition spec_clamp_multiplier (m : Q) : Q :=
  Qmin (Qmax m (1#1000)) MAX_LOT_MULTIPLIER.

(** Step 2-3: the pip-value parity volume. *)
Definition spec_dynamic_pip_volume (source_pip dest_pip : Q) (original_volume : Z) : Z :=
  let risk_multiplier :=
    spec_clamp_multiplier (source_pip / dest_pip * DYNAMIC_PIP_VOLUME_RATIO)%Q in
  Z.max MIN_LOT_SIZE (spec_round (inject_Z original_volume * risk_multiplier)).

(** Step 4: the static-multiplier fallback. *)
Definition spec_simple_multiplier_volume (symbol : string) (original_volume : Z) : Z :=
  Z.max MIN_LOT_SIZE (spec_round (inject_Z original_volume * select_multiplier symbol)).

(** ** Concrete reference data *)

Definition usd : AssetData := {| asset_id := 10; asset_name := "USD"; asset_digits := 2 |}.

(** An EURUSD-like instrument quoted in the deposit currency, no live prices. *)
Definition eurusd_ref (lot : Z) (step : Z) : SymbolData :=
  {| sd_symbol_id := 1; sd_symbol_name := "EURUSD"; sd_digits := 5;
     pip_position := 4; lot_size := lot; base_asset_id := 11; quote_asset_id := 10;
     current_bid := 0; current_ask := 0; volume_step := step |}.

Definition mk_copier (ms ss : gmap Z SymbolData) (ma sa : gmap Z AssetData)
  (md sdep : option Z) (ratios : gmap Z Q) : Copier :=
  {| master_symbols := ms; slave_symbols := ss;
     master_assets := ma; slave_assets := sa;
     master_deposit_asset_id := md; slave_deposit_asset_id := sdep;
     master_data_loaded := true; slave_data_loaded := true;
     slave_authorized := true;
     pip_values_cache := ∅; symbol_volume_ratio := ratios |}.

(** Both accounts loaded: master pip value 10, slave pip value 5. *)
Definition st_pips_loaded : Copier :=
  mk_copier {[1 := eurusd_ref 100000 100]} {[1 := eurusd_ref 50000 100]}
            {[10 := usd]} {[10 := usd]} (Some 10) (Some 10) ∅.

(** No reference data: no pip value can be computed. *)
Definition st_no_data : Copier := mk_copier ∅ ∅ ∅ ∅ None None ∅.

(** Instrument loaded, deposit asset id known, asset list not loaded. *)
Definition st_no_assets : Copier :=
  mk_copier {[1 := eurusd_ref 100000 100]} ∅ ∅ ∅ (Some 10) None ∅.

(** Ratio 0.5 stored for instrument 1, slave step 1000. *)
Definition st_half_ratio : Copier :=
  mk_copier ∅ {[1 := eurusd_ref 100000 1000]} ∅ ∅ None None {[1 := (1#2)%Q]}.

Definition open_signal (symbol_id : Z) (volume : Z) : TradeSignal :=
  {| ts_symbol := _get_symbol_name symbol_id; ts_side := "BUY";
     ts_volume := volume; ts_symbol_id := Some symbol_id |}.

(** An optional int's truthiness. *)
Definition truthy_z (o : option Z) : bool :=
  match o with
  | Some z => negb (Z.eqb z 0)
  | None => false
  end.

(** ** Reference data of an account: _handle_trader_info (lines 685-707),
    _handle_asset_list (709-734), _handle_symbol_list (736-769),
    _check_data_loading_complete (830-855), _handle_spot_event (788-820),
    _on_disconnected (155-161) and _handle_account_auth (253-287). *)

Global Instance account_type_eq_dec : EqDecision account_type.
Proof. solve_decision. Defined.

(** The four per-account attributes: [<acct>_symbols], [<acct>_assets],
    [<acct>_deposit_asset_id] and [<acct>_data_loaded]. *)
Record AccountView := {
  v_symbols : gmap Z SymbolData;
  v_assets : gmap Z AssetData;
  v_deposit : option Z;
  v_loaded : bool
}.

Definition acct_data_loaded (st : Copier) (acct : account_type) : bool :=
  match acct with Master => master_data_loaded st | Slave => slave_data_loaded st end.

Definition acct_view (st : Copier) (acct : account_type) : AccountView :=
  {| v_symbols := acct_symbols st acct; v_assets := acct_assets st acct;
     v_deposit := acct_deposit_asset_id st acct; v_loaded := acct_data_loaded st acct |}.

(** Writes the four attributes of one account. *)
Definition set_acct (st : Copier) (acct : account_type) (v : AccountView) : Copier :=
  match acct with
  | Master =>
      {| master_symbols := v_symbols v; slave_symbols := slave_symbols st;
         master_assets := v_assets v; slave_assets := slave_assets st;
         master_deposit_asset_id := v_deposit v;
         slave_deposit_asset_id := slave_deposit_asset_id st;
         master_data_loaded := v_loaded v; slave_data_loaded := slave_data_loaded st;
         slave_authorized := slave_authorized st;
         pip_values_cache := pip_values_cache st;
         symbol_volume_ratio := symbol_volume_ratio st |}
  | Slave =>
      {| master_symbols := master_symbols st; slave_symbols := v_symbols v;
         master_assets := master_assets st; slave_assets := v_assets v;
         master_deposit_asset_id := master_deposit_asset_id st;
         slave_deposit_asset_id := v_deposit v;
         master_data_loaded := master_data_loaded st; slave_data_loaded := v_loaded v;
         slave_authorized := slave_authorized st;
         pip_values_cache := pip_values_cache st;
         symbol_volume_ratio := symbol_volume_ratio st |}
  end.

Definition set_slave_authorized (st : Copier) (b : bool) : Copier :=
  {| master_symbols := master_symbols st; slave_symbols := slave_symbols st;
     master_assets := master_assets st; slave_assets := slave_assets st;
     master_deposit_asset_id := master_deposit_asset_id st;
     slave_deposit_asset_id := slave_deposit_asset_id st;
     master_data_loaded := master_data_loaded st;
     slave_data_loaded := slave_data_loaded st;
     slave_authorized := b;
     pip_values_cache := pip_values_cache st;
     symbol_volume_ratio := symbol_volume_ratio st |}.

(** [len(d) > 0] *)
Definition nonempty {A} (d : gmap Z A) : bool := negb (bool_decide (d = ∅)).

Definition _check_data_loading_complete (st : Copier) (acct : account_type) : Copier :=
  let v := acct_view st acct in
  let has_deposit_asset := match v_deposit v with Some _ => true | None => false end in
  let has_assets := nonempty (v_assets v) in
  let has_symbols := nonempty (v_symbols v) in
  if has_deposit_asset && has_assets && has_symbols then
    set_acct st acct {| v_symbols := v_symbols v; v_assets := v_assets v;
                        v_deposit := v_deposit v; v_loaded := true |}
  else st.

(** [trader.depositAssetId], [None] when the response carries no trader or
    the trader has no such attribute. *)
Definition _handle_trader_info (st : Copier) (acct : account_type)
  (deposit_asset_id : option Z) : Copier :=
  if truthy_z deposit_asset_id then
    let v := acct_view st acct in
    set_acct st acct {| v_symbols := v_symbols v; v_assets := v_assets v;
                        v_deposit := deposit_asset_id; v_loaded := v_loaded v |}
  else st.

(** A [ProtoOAAsset]: assetId, name, digits (2 when absent). *)
Record ProtoAsset := {
  pa_assetId : Z;
  pa_name : string;
  pa_digits : Z
}.

Definition asset_data_of (a : ProtoAsset) : AssetData :=
  {| asset_id := pa_assetId a; asset_name := pa_name a; asset_digits := pa_digits a |}.

Definition _handle_asset_list (st : Copier) (acct : account_type)
  (assets : list ProtoAsset) : Copier :=
  match assets with
  | [] => st
  | _ =>
      let v := acct_view st acct in
      let asset_dict :=
        fold_left (fun d a => <[pa_assetId a := asset_data_of a]> d) assets (v_assets v) in
      _check_data_loading_complete
        (set_acct st acct {| v_symbols := v_symbols v; v_assets := asset_dict;
                             v_deposit := v_deposit v; v_loaded := v_loaded v |}) acct
  end.

(** The fields of a [ProtoOASymbol] the handler reads, as values: each is
    left free.  (A protobuf message has every declared field, unset ones
    reading as 0, so the [getattr] defaults only apply to attributes the
    message type does not declare.) *)
Record ProtoSymbol := {
  ps_symbolId : Z;
  ps_digits : Z;
  ps_pipPosition : Z;
  ps_lotSize : Z;
  ps_baseAssetId : Z;
  ps_quoteAssetId : Z;
  ps_stepVolume : Z
}.

(** A fresh [SymbolData]: prices take the dataclass defaults 0.0. *)
Definition symbol_data_of (p : ProtoSymbol) : SymbolData :=
  {| sd_symbol_id := ps_symbolId p; sd_symbol_name := _get_symbol_name (ps_symbolId p);
     sd_digits := ps_digits p; pip_position := ps_pipPosition p;
     lot_size := ps_lotSize p; base_asset_id := ps_baseAssetId p;
     quote_asset_id := ps_quoteAssetId p; current_bid := 0; current_ask := 0;
     volume_step := ps_stepVolume p |}.

(** The spot subscription request the handler sends is not part of the state. *)
Definition _handle_symbol_list (st : Copier) (acct : account_type)
  (symbols : list ProtoSymbol) : Copier :=
  match symbols with
  | [] => st
  | _ =>
      let v := acct_view st acct in
      let symbol_dict :=
        fold_left (fun d p => <[ps_symbolId p := symbol_data_of p]> d) symbols (v_symbols v) in
      _check_data_loading_complete
        (set_acct st acct {| v_symbols := symbol_dict; v_assets := v_assets v;
                             v_deposit := v_deposit v; v_loaded := v_loaded v |}) acct
  end.

Definition _convert_relative_price (relative_price : Z) (symbol_data : SymbolData) : Q :=
  (inject_Z relative_price / Qpower (inject_Z 10) (sd_digits symbol_data))%Q.

Definition set_prices (sd : SymbolData) (bid ask : Q) : SymbolData :=
  {| sd_symbol_id := sd_symbol_id sd; sd_symbol_name := sd_symbol_name sd;
     sd_digits := sd_digits sd; pip_position := pip_position sd;
     lot_size := lot_size sd; base_asset_id := base_asset_id sd;
     quote_asset_id := quote_asset_id sd; current_bid := bid; current_ask := ask;
     volume_step := volume_step sd |}.

(** [bid]/[ask] are the event's relative prices, [None] when absent; a zero
    price is falsy and leaves the stored one. *)
Definition _handle_spot_event (master_account_id slave_account_id : Z) (st : Copier)
  (account_id symbol_id : Z) (bid ask : option Z) : Copier :=
  let target :=
    if Z.eqb account_id master_account_id then Some Master
    else if Z.eqb account_id slave_account_id then Some Slave
    else None in
  match target with
  | None => st
  | Some acct =>
      let v := acct_view st acct in
      match v_symbols v !! symbol_id with
      | None => st
      | Some symbol_data =>
          let new_bid :=
            match bid with
            | Some b => if Z.eqb b 0 then current_bid symbol_data
                        else _convert_relative_price b symbol_data
            | None => current_bid symbol_data
            end in
          let new_ask :=
            match ask with
            | Some a => if Z.eqb a 0 then current_ask symbol_data
                        else _convert_relative_price a symbol_data
            | None => current_ask symbol_data
            end in
          set_acct st acct
            {| v_symbols := <[symbol_id := set_prices symbol_data new_bid new_ask]> (v_symbols v);
               v_assets := v_assets v; v_deposit := v_deposit v; v_loaded := v_loaded v |}
      end
  end.

(** Only [slave_authorized] of the flags cleared here is part of [Copier]. *)
Definition _on_disconnected (st : Copier) : Copier := set_slave_authorized st false.

(** The slave branch of the authorization response; the master branch only
    touches [master_authorized] and sends requests. *)
Definition _handle_account_auth (master_account_id slave_account_id : Z) (st : Copier)
  (account_id : Z) : Copier :=
  if Z.eqb account_id master_account_id then st
  else if Z.eqb account_id slave_account_id then set_slave_authorized st true
  else st.

(** The events that change the copier's state ([_handle_positions_for_close]
    only builds a request). *)
Inductive copier_step (master_account_id slave_account_id : Z) : Copier -> Copier -> Prop :=
| step_trader_info st acct dep :
    copier_step master_account_id slave_account_id st (_handle_trader_info st acct dep)
| step_asset_list st acct assets :
    copier_step master_account_id slave_account_id st (_handle_asset_list st acct assets)
| step_symbol_list st acct symbols :
    copier_step master_account_id slave_account_id st (_handle_symbol_list st acct symbols)
| step_spot st account_id symbol_id bid ask :
    copier_step master_account_id slave_account_id st
      (_handle_spot_event master_account_id slave_account_id st account_id symbol_id bid ask)
| step_copy fuel st signal :
    copier_step master_account_id slave_account_id st (fst (_copy_to_slave fuel st signal))
| step_auth st account_id :
    copier_step master_account_id slave_account_id st
      (_handle_account_auth master_account_id slave_account_id st account_id)
| step_disconnect st :
    copier_step master_account_id slave_account_id st (_on_disconnected st).

(** What the handlers maintain for each account: the loaded flag is only set
    with a deposit asset id and non-empty asset and symbol tables; the
    deposit asset id is never 0; each table is keyed by its entries' ids. *)
Definition account_inv (v : AccountView) : Prop :=
  (v_loaded v = true -> v_deposit v <> None /\ v_assets v <> ∅ /\ v_symbols v <> ∅)
  /\ v_deposit v <> Some 0
  /\ (forall k a, v_assets v !! k = Some a -> asset_id a = k)
  /\ (forall k s, v_symbols v !! k = Some s -> sd_symbol_id s = k).

Definition copier_inv (st : Copier) : Prop := forall acct, account_inv (acct_view st acct).

(** ** _handle_execution_event (lines 305-412): dispatch *)

(** The parts of a [ProtoOAExecutionEvent] the handler reads beyond those of
    [ExecutionEvent]: the account id, [deal.tradeSide], [order.tradeData]
    (symbolId, tradeSide, volume) and the event-level [getattr(execution_event,
    'symbolId' / 'tradeSide' / 'volume', None)], [None] when absent. *)
Record ExecutionMessage := {
  msg_accountId : Z;
  msg_event : ExecutionEvent;
  msg_deal_tradeSide : option Z;
  msg_order_tradeData : option (option Z * option Z * option Z);
  msg_symbolId : option Z;
  msg_tradeSide : option Z;
  msg_volume : option Z
}.

Inductive ExecAction :=
| Ignored
| MissingDetails
| CloseSlave (symbol_id : Z) (symbol_name : string) (volume : Z)
| CopyOpen (signal : TradeSignal).

(** [ProtoOATradeSide.BUY] *)
Definition TRADE_SIDE_BUY : Z := 1.

(** Lines 339-375: details from the deal, else from [order.tradeData], and
    from the event itself when no truthy symbol id was found. *)
Definition trade_details (m : ExecutionMessage) : option Z * option Z * option Z :=
  let ev := msg_event m in
  let '(symbol_id, trade_side, volume) :=
    match ev_deal ev with
    | Some d => (Some (deal_symbolId d), msg_deal_tradeSide m, Some (deal_volume d))
    | None =>
        match ev_order ev, msg_order_tradeData m with
        | Some _, Some td => td
        | _, _ => (None, None, None)
        end
    end in
  if truthy_z symbol_id then (symbol_id, trade_side, volume)
  else (msg_symbolId m, msg_tradeSide m, msg_volume m).

Definition _handle_execution_event (master_account_id : Z) (m : ExecutionMessage)
  : ExecAction :=
  if negb (Z.eqb (msg_accountId m) master_account_id) then Ignored else
  let execution_type := executionType (msg_event m) in
  if negb (Z.eqb execution_type 3 || Z.eqb execution_type 4) then Ignored else
  let is_closing := is_closing_order (msg_event m) in
  match trade_details m with
  | (Some symbol_id, Some trade_side, Some volume) =>
      if negb (Z.eqb symbol_id 0) && negb (Z.eqb volume 0) then
        let symbol_name := _get_symbol_name symbol_id in
        if is_closing then CloseSlave symbol_id symbol_name volume
        else CopyOpen {| ts_symbol := symbol_name;
                         ts_side := if Z.eqb trade_side TRADE_SIDE_BUY then "BUY" else "SELL";
                         ts_volume := volume;
                         ts_symbol_id := Some symbol_id |}
      else MissingDetails
  | _ => MissingDetails
  end.

(** ** config_helper.calculate_slave_volume (lines 9-36) *)

(** Returns [(slave_volume_lots, multiplier_used)]. *)
Definition calculate_slave_volume (symbol : string) (master_volume_lots : Q) : Q * Q :=
  let master_volume_micro := py_int (master_volume_lots * inject_Z 100000) in
  let multiplier := select_multiplier symbol in
  let slave_volume_micro := py_int (inject_Z master_volume_micro * multiplier) in
  let slave_volume_micro := Z.max 1000 slave_volume_micro in
  (inject_Z slave_volume_micro / inject_Z 100000, multiplier)%Q.

(** ** trade_copier.py: _get_symbol_id / _get_symbol_name (lines 227-241, 302-314) *)

Definition tc_symbol_map : list (string * Z) := [
  ("EURUSD", 1); ("GBPUSD", 2); ("USDJPY", 3); ("USDCHF", 4);
  ("AUDUSD", 5); ("USDCAD", 6); ("NZDUSD", 7)
]%string.

Definition tc_get_symbol_id (symbol_name : string) : Z :=
  match str_get tc_symbol_map symbol_name with
  | Some i => i
  | None => 1
  end.

Definition tc_id_to_symbol : list (Z * string) := [
  (1, "EURUSD"); (2, "GBPUSD"); (3, "USDJPY"); (4, "USDCHF");
  (5, "AUDUSD"); (6, "USDCAD"); (7, "NZDUSD")
]%string.

(** [payload.get("symbolId")] may be [None]; [id_to_symbol.get(None, ...)]
    falls back to ["UNKNOWN"] as for an unknown id. *)
Definition tc_get_symbol_name (symbol_id : option Z) : string :=
  match symbol_id with
  | Some i => match z_get tc_id_to_symbol i with Some s => s | None => "UNKNOWN" end
  | None => "UNKNOWN"
  end.

(** Growth of an account's reference data. *)
Definition view_grows (v v' : AccountView) : Prop :=
  (v_loaded v = true -> v_loaded v' = true)
  /\ (forall k, is_Some (v_symbols v !! k) -> is_Some (v_symbols v' !! k))
  /\ (forall k, is_Some (v_assets v !! k) -> is_Some (v_assets v' !! k))
  /\ (v_deposit v <> None -> v_deposit v' <> None).

(** ** Further concrete inputs *)

Definition eur : AssetData := {| asset_id := 11; asset_name := "EUR"; asset_digits := 2 |}.

(** Slave account with EUR deposit and an EURUSD instrument quoted in USD,
    no prices received yet. *)
Definition st_cross : Copier :=
  mk_copier ∅ {[1 := eurusd_ref 100000 100]} ∅ (<[10 := usd]> {[11 := eur]})
            None (Some 11) ∅.

Definition eurusd_proto : ProtoSymbol :=
  {| ps_symbolId := 1; ps_digits := 5; ps_pipPosition := 4; ps_lotSize := 100000;
     ps_baseAssetId := 11; ps_quoteAssetId := 10; ps_stepVolume := 100 |}.

Definition eur_proto : ProtoAsset := {| pa_assetId := 11; pa_name := "EUR"; pa_digits := 2 |}.

Definition buy_deal (symbol_id : Z) : Deal :=
  {| deal_symbolId := symbol_id; deal_volume := 1000; closePositionDetail := None |}.

(** A fill of an opening order on the given account. *)
Definition fill_message (account_id execution_type : Z) (d : Deal) : ExecutionMessage :=
  {| msg_accountId := account_id;
     msg_event := {| executionType := execution_type;
                     ev_order := Some {| closingOrder := false |};
                     ev_deal := Some d |};
     msg_deal_tradeSide := Some TRADE_SIDE_BUY;
     msg_order_tradeData := None;
     msg_symbolId := None; msg_tradeSide := None; msg_volume := None |}.

(** ** Basic lemmas *)

Lemma dynamic_pip_volume_raises (fuel : nat) (st : Copier) (symbol : string) (v : Z) :
  exists st' e, _calculate_dynamic_pip_volume fuel st symbol v = (st', Exc e)
                /\ symbol_volume_ratio st' = symbol_volume_ratio st.
Proof.
  revert st; induction fuel as [|fuel IH]; intros st; simpl; [eauto|].
  destruct (truthy_q _ && truthy_q _); simpl; [|eauto].
  match goal with
  | |- context [_calculate_dynamic_pip_volume fuel ?s symbol v] =>
      destruct (IH s) as (st' & e & -> & Hr)
  end.
  simpl; eauto.
Qed.

Lemma adjusted_volume_fallback (fuel : nat) (st : Copier) (symbol : string) (v : Z) :
  exists st', _calculate_adjusted_volume fuel st symbol v
              = (st', Ok (Z.max MIN_LOT_SIZE (py_int (inject_Z v * (1#2)))))
              /\ symbol_volume_ratio st' = symbol_volume_ratio st.
Proof.
  unfold _calculate_adjusted_volume.
  destruct (dynamic_pip_volume_raises fuel st symbol v) as (st' & e & -> & Hr).
  eauto.
Qed.

Lemma z_get_none {V : Type} (d : list (Z * V)) (k : Z) :
  z_get d k = None <-> ~ In k (map fst d).
Proof.
  induction d as [|[k' v] d IH]; simpl; [tauto|].
  destruct (Z.eqb_spec k k') as [->|Hne].
  - split; [discriminate|]. intros H; exfalso; apply H; left; reflexivity.
  - rewrite IH. split; intros H; [intros [E|E]; [congruence|tauto] | tauto].
Qed.

(** ** Volume adjustment on open *)

(** C9: [_calculate_adjusted_volume] never raises, whatever the stack depth
    and the reference data: the dynamic path always ends in an exception (its
    fallback method does not exist, and with pip values available it recurses
    until the stack runs out), so the method always returns the hard-coded
    50% fallback [max(MIN_LOT_SIZE, int(originalVolume * 0.5))]. *)
Theorem adjusted_volume_total_half_fallback (fuel : nat) (st : Copier)
  (symbol : string) (original_volume : Z) :
  (exists st' e, _calculate_dynamic_pip_volume fuel st symbol original_volume = (st', Exc e))
  /\ snd (_calculate_adjusted_volume fuel st symbol original_volume)
     = Ok (Z.max MIN_LOT_SIZE (py_int (inject_Z original_volume * (1#2)))).
Proof.
  split.
  { destruct (dynamic_pip_volume_raises fuel st symbol original_volume) as (st' & e & H & _).
    eauto. }
  destruct (adjusted_volume_fallback fuel st symbol original_volume) as (st' & -> & _).
  reflexivity.
Qed.

(** C7: on every path the returned volume is at least the configured minimum
    lot size: the single-connection copier returns a value that is at least
    [MIN_LOT_SIZE] (= 100), and the balance-based sizing of trade_copier.py
    returns at least 1000 >= [MIN_LOT_SIZE]. *)
Theorem adjusted_volume_at_least_min_lot (fuel : nat) (st : Copier) (symbol : string)
  (original_volume : Z) (lot_percentage slave_balance : Q) :
  match snd (_calculate_adjusted_volume fuel st symbol original_volume) with
  | Ok v => MIN_LOT_SIZE <= v
  | Exc _ => False
  end
  /\ MIN_LOT_SIZE <= _calculate_adjusted_volume_balance lot_percentage original_volume slave_balance.
Proof.
  split.
  - destruct (adjusted_volume_fallback fuel st symbol original_volume) as (st' & -> & _).
    simpl; lia.
  - unfold _calculate_adjusted_volume_balance, MIN_LOT_SIZE; lia.
Qed.

(** C1 (as the code behaves): both pip values are available (master 10,
    slave 5), so the specification's parity rule gives multiplier
    clamp(10/5 * 0.5) = 1 and volume 1000 for an open of 1000; the copier,
    at any stack depth, sends 500. *)
Theorem open_with_pip_values_sends_half (fuel : nat) :
  _calculate_pip_value st_pips_loaded 1 Master = Some (1 / Qpower (inject_Z 10) 4 * inject_Z 100000)%Q
  /\ _calculate_pip_value st_pips_loaded 1 Slave = Some (1 / Qpower (inject_Z 10) 4 * inject_Z 50000)%Q
  /\ spec_dynamic_pip_volume (1 / Qpower (inject_Z 10) 4 * inject_Z 100000)
       (1 / Qpower (inject_Z 10) 4 * inject_Z 50000) 1000 = 1000
  /\ option_map nor_volume (snd (_copy_to_slave fuel st_pips_loaded (open_signal 1 1000)))
     = Some 500.
Proof.
  split; [reflexivity|]. split; [reflexivity|]. split; [vm_compute; reflexivity|].
  unfold _copy_to_slave. simpl (negb (slave_authorized st_pips_loaded)). cbv iota.
  destruct (adjusted_volume_fallback fuel st_pips_loaded (ts_symbol (open_signal 1 1000))
              (ts_volume (open_signal 1 1000))) as (st' & -> & _).
  reflexivity.
Qed.

(** C5 (as the code behaves): with no reference data loaded the pip values
    are unavailable; the configured table gives XAUUSD the multiplier 0.25,
    hence 250 for an open of 1000, but the copier returns 500. *)
Theorem fallback_ignores_multiplier_table (fuel : nat) :
  _calculate_pip_value st_no_data (_get_symbol_id "XAUUSD") Master = None
  /\ select_multiplier "XAUUSD" = (1#4)%Q
  /\ spec_simple_multiplier_volume "XAUUSD" 1000 = 250
  /\ snd (_calculate_adjusted_volume fuel st_no_data "XAUUSD" 1000) = Ok 500.
Proof.
  split; [reflexivity|]. split; [reflexivity|]. split; [vm_compute; reflexivity|].
  destruct (adjusted_volume_fallback fuel st_no_data "XAUUSD" 1000) as (st' & -> & _).
  reflexivity.
Qed.

(** ** Pip value *)

(** C6 (amended): once the instrument is loaded and the account's deposit
    asset id is set to a non-zero id (the code treats 0 as unset) present in
    the asset table, an instrument whose quote asset is the deposit asset, or
    is missing from the asset table, has pip value
    [10^(-pipPosition) * lotSize], whatever its bid and ask.  If the
    instrument is not loaded, the deposit asset id is unset (None or 0), or
    the deposit asset is missing from the asset table, the pip value is
    [None]. *)
Theorem pip_value_same_currency (st : Copier) (acct : account_type) (symbol_id : Z) :
  (forall dep sd deposit_asset,
     acct_symbols st acct !! symbol_id = Some sd ->
     acct_deposit_asset_id st acct = Some dep -> dep <> 0 ->
     acct_assets st acct !! dep = Some deposit_asset ->
     quote_asset_id sd = dep \/ acct_assets st acct !! quote_asset_id sd = None ->
     exists v, _calculate_pip_value st symbol_id acct = Some v
               /\ (v == Qpower (inject_Z 10) (- pip_position sd) * inject_Z (lot_size sd))%Q)
  /\ (acct_symbols st acct !! symbol_id = None ->
      _calculate_pip_value st symbol_id acct = None)
  /\ (acct_deposit_asset_id st acct = None \/ acct_deposit_asset_id st acct = Some 0 ->
      _calculate_pip_value st symbol_id acct = None)
  /\ (forall dep, acct_deposit_asset_id st acct = Some dep ->
      acct_assets st acct !! dep = None ->
      _calculate_pip_value st symbol_id acct = None).
Proof.
  split; [|split; [|split]].
  - intros dep sd deposit_asset Hsym Hdep Hnz Hasset Hquote.
    unfold _calculate_pip_value.
    rewrite Hsym, Hdep.
    destruct (Z.eqb_spec dep 0) as [E|_]; [contradiction|].
    rewrite Hasset.
    destruct Hquote as [Hq|Hq]; rewrite Hq; [rewrite Hasset|]; rewrite Z.eqb_refl;
      eexists; (split; [reflexivity|]);
      rewrite Qpower_opp; field; apply Qpower_not_0; discriminate.
  - intros Hsym. unfold _calculate_pip_value. rewrite Hsym. reflexivity.
  - intros Hdep. unfold _calculate_pip_value.
    destruct (acct_symbols st acct !! symbol_id); [|reflexivity].
    destruct Hdep as [-> | ->]; reflexivity.
  - intros dep Hdep Hasset. unfold _calculate_pip_value.
    destruct (acct_symbols st acct !! symbol_id); [|reflexivity].
    rewrite Hdep. destruct (dep =? 0); [reflexivity|]. rewrite Hasset. reflexivity.
Qed.

(** ** Close replication *)

(** C3: the close volume is either the floor-rounded multiple of the step or
    the whole current volume. *)
Theorem close_volume_step_multiple_or_full (ratio : Q)
  (step master_close_volume current_volume : Z)
  (Hr : (0 < ratio)%Q) (Hs : 0 < step) (Hc : 0 <= current_volume) :
  let v := compute_volume_to_close ratio step master_close_volume current_volume in
  (v = (py_int (inject_Z master_close_volume * ratio) / step) * step /\ v mod step = 0)
  \/ v = current_volume.
Proof.
  unfold compute_volume_to_close; cbv zeta.
  destruct (_ <=? step); [right; reflexivity|left].
  split; [reflexivity|]. apply Z.mod_mul; lia.
Qed.

(** C8: the step the close rounding divides by is always positive: the
    slave's broker step when the instrument is loaded with a positive step,
    otherwise [MIN_LOT_SIZE] = 100. *)
Theorem close_step_positive (slave_syms : gmap Z SymbolData) (symbol_id : Z) :
  0 < close_step slave_syms symbol_id
  /\ close_step slave_syms symbol_id
     = match slave_syms !! symbol_id with
       | Some sd => if 0 <? volume_step sd then volume_step sd else MIN_LOT_SIZE
       | None => MIN_LOT_SIZE
       end
  /\ MIN_LOT_SIZE = 100.
Proof.
  unfold close_step, MIN_LOT_SIZE.
  destruct (slave_syms !! symbol_id) as [sd|]; simpl; [|split; [lia|auto]].
  destruct (Z.leb_spec (volume_step sd) 0), (Z.ltb_spec 0 (volume_step sd)); split; try lia; auto.
Qed.

(** C2 (amended): with stored ratio 0.5, a source close of 1500, slave step
    1000 and a slave position of 1500, the close volume rounds down to 0, the
    full-close override does not apply (1500 - 0 > 1000), and a close request
    with volume 0 is sent. *)
Theorem close_half_ratio_sends_zero_volume (st : Copier) (symbol_id position_id : Z)
  (Hratio : symbol_volume_ratio st !! symbol_id = Some (1#2)%Q)
  (Hstep : close_step (slave_symbols st) symbol_id = 1000)
  (Hpos : position_id <> 0) :
  compute_volume_to_close (1#2) 1000 1500 1500 = 0
  /\ _handle_positions_for_close st
       [{| positionId := position_id;
           pos_tradeData := Some {| td_symbolId := symbol_id; td_volume := 1500 |} |}]
       symbol_id 1500
     = Some {| cpr_positionId := position_id; cpr_volume := 0 |}.
Proof.
  split; [reflexivity|].
  unfold _handle_positions_for_close. simpl. rewrite Z.eqb_refl.
  rewrite Hratio, Hstep. cbn [positionId td_volume].
  destruct (Z.eqb_spec position_id 0) as [E|_]; [contradiction|].
  reflexivity.
Qed.

(** ** Execution classification *)

(** C4: a fill or partial fill is classified as a close exactly when the deal
    carries a [closePositionDetail] that is non-empty after [strip()], or the
    order has [closingOrder] set; otherwise (in particular for an empty or
    blank detail without [closingOrder]) it is classified as an open. *)
Theorem classify_fill_close_iff (ev : ExecutionEvent) :
  classify_fill ev = Close
  <-> (exists d s, ev_deal ev = Some d /\ closePositionDetail d = Some s /\ py_strip s <> [])
      \/ (exists o, ev_order ev = Some o /\ closingOrder o = true).
Proof.
  destruct ev as [et o d]; unfold classify_fill, is_closing_order; simpl.
  destruct o as [[co]|]; destruct d as [[ds dv [s|]]|]; simpl;
    try case_bool_decide; try destruct co; simpl; naive_solver.
Qed.

(** ** Symbol id / name mapping and the ratio key *)

(** C10: [_get_symbol_id (_get_symbol_name i) = i] exactly for the 16 ids of
    the hard-coded table.  Any other id is named ["SYMBOL_<i>"], which maps
    back to 1, so the ratio stored when an open of that instrument is copied
    is keyed by 1 and the entry for the instrument's own id (the one a later
    close looks up) is untouched. *)
Theorem symbol_roundtrip_only_on_table (i : Z) :
  (_get_symbol_id (_get_symbol_name i) = i <-> In i mapped_symbol_ids)
  /\ (~ In i mapped_symbol_ids ->
      _get_symbol_name i = String.append "SYMBOL_" (pretty i)
      /\ _get_symbol_id (_get_symbol_name i) = 1
      /\ forall (fuel : nat) (st : Copier) (volume : Z),
           slave_authorized st = true -> volume <> 0 ->
           let st' := fst (_copy_to_slave fuel st (open_signal i volume)) in
           (exists r, symbol_volume_ratio st' !! 1 = Some r)
           /\ symbol_volume_ratio st' !! i = symbol_volume_ratio st !! i).
Proof.
  assert (Hout : ~ In i mapped_symbol_ids ->
                 _get_symbol_name i = String.append "SYMBOL_" (pretty i)
                 /\ _get_symbol_id (_get_symbol_name i) = 1).
  { intros Hi. unfold _get_symbol_name.
    assert (E : z_get id_to_symbol i = None) by (apply z_get_none; exact Hi).
    rewrite E. split; [reflexivity|]. reflexivity. }
  split.
  - split.
    + intros H. destruct (decide (In i mapped_symbol_ids)) as [Hi|Hi]; [exact Hi|].
      destruct (Hout Hi) as [_ H1]. rewrite H1 in H. subst i.
      exfalso; apply Hi; simpl; tauto.
    + intros Hi. simpl in Hi.
      repeat (destruct Hi as [<-|Hi]; [reflexivity|]). contradiction.
  - intros Hi. destruct (Hout Hi) as [Hn H1]. split; [exact Hn|]. split; [exact H1|].
    intros fuel st volume Hauth Hv. cbv zeta.
    unfold _copy_to_slave. rewrite Hauth. simpl negb. cbv iota.
    destruct (adjusted_volume_fallback fuel st (ts_symbol (open_signal i volume))
                (ts_volume (open_signal i volume))) as (st1 & -> & Hr).
    simpl. destruct (Z.eqb_spec volume 0) as [E|_]; [contradiction|]. simpl.
    rewrite H1, Hr.
    assert (Hi1 : i <> 1) by (intros ->; apply Hi; simpl; tauto).
    split.
    + eexists. apply lookup_insert_eq.
    + apply lookup_insert_ne. congruence.
Qed.

(** ** Counterexamples *)

(** C6 as stated: the instrument is loaded and quoted in the deposit asset
    (id 10), but the asset list has not arrived, so the pip value is [None]
    rather than 10. *)
Lemma pip_value_same_currency_unloaded_assets :
  quote_asset_id (eurusd_ref 100000 100) = 10
  /\ master_deposit_asset_id st_no_assets = Some 10
  /\ _calculate_pip_value st_no_assets 1 Master = None.
Proof. split; [reflexivity|]. split; reflexivity. Qed.

(** C2 as stated: the close rounds to 0 and a close request is still sent,
    with volume 0. *)
Lemma close_half_ratio_request_sent :
  _handle_positions_for_close st_half_ratio
    [{| positionId := 77;
        pos_tradeData := Some {| td_symbolId := 1; td_volume := 1500 |} |}]
    1 1500
  = Some {| cpr_positionId := 77; cpr_volume := 0 |}.
Proof. reflexivity. Qed.

(** ** Witnesses *)

Lemma pip_value_same_currency_witness :
  exists v, _calculate_pip_value st_pips_loaded 1 Master = Some v
            /\ (v == Qpower (inject_Z 10) (- 4) * inject_Z 100000)%Q.
Proof.
  apply (proj1 (pip_value_same_currency st_pips_loaded Master 1) 10
           (eurusd_ref 100000 100) usd); [reflexivity|reflexivity|discriminate|reflexivity|].
  left; reflexivity.
Defined.

Lemma close_volume_step_multiple_or_full_witness :
  (0 < 1#2)%Q /\ 0 < 1000 /\ 0 <= 1500
  /\ ((compute_volume_to_close (1#2) 1000 1500 1500
       = (py_int (inject_Z 1500 * (1#2)) / 1000) * 1000
       /\ compute_volume_to_close (1#2) 1000 1500 1500 mod 1000 = 0)
      \/ compute_volume_to_close (1#2) 1000 1500 1500 = 1500).
Proof.
  split; [reflexivity|]. split; [lia|]. split; [lia|].
  apply (close_volume_step_multiple_or_full (1#2) 1000 1500 1500); [reflexivity|lia|lia].
Defined.

Lemma close_half_ratio_sends_zero_volume_witness :
  symbol_volume_ratio st_half_ratio !! 1 = Some (1#2)%Q
  /\ close_step (slave_symbols st_half_ratio) 1 = 1000
  /\ compute_volume_to_close (1#2) 1000 1500 1500 = 0
  /\ _handle_positions_for_close st_half_ratio
       [{| positionId := 77;
           pos_tradeData := Some {| td_symbolId := 1; td_volume := 1500 |} |}]
       1 1500
     = Some {| cpr_positionId := 77; cpr_volume := 0 |}.
Proof.
  split; [reflexivity|]. split; [reflexivity|].
  apply (close_half_ratio_sends_zero_volume st_half_ratio 1 77); [reflexivity|reflexivity|lia].
Defined.

Lemma symbol_roundtrip_only_on_table_witness :
  _get_symbol_id (_get_symbol_name 100) = 1
  /\ symbol_volume_ratio (fst (_copy_to_slave 3 st_pips_loaded (open_signal 100 1000))) !! 100
     = None.
Proof.
  destruct (symbol_roundtrip_only_on_table 100) as [_ H].
  assert (Hn : ~ In 100 mapped_symbol_ids)
    by (intros Hin; simpl in Hin; intuition discriminate).
  destruct (H Hn) as (_ & H1 & H2).
  split; [exact H1|].
  destruct (H2 3%nat st_pips_loaded 1000 eq_refl ltac:(lia)) as [_ H3].
  rewrite H3. reflexivity.
Defined.

(** The specification's example: pip position 4 and lot size 100000 give a
    pip value of 10. *)
Example pip_value_example_ten :
  _calculate_pip_value st_pips_loaded 1 Master = Some (1 / Qpower (inject_Z 10) 4 * inject_Z 100000)%Q
  /\ (1 / Qpower (inject_Z 10) 4 * inject_Z 100000 == 10)%Q.
Proof. split; reflexivity. Qed.

(** A blank [closePositionDetail] without [closingOrder] is an open. *)
Example classify_blank_detail_open :
  classify_fill {| executionType := 3; ev_order := Some {| closingOrder := false |};
                   ev_deal := Some {| deal_symbolId := 1; deal_volume := 1000;
                                      closePositionDetail := Some " " |} |} = Open.
Proof. reflexivity. Qed.

(** * Further code of the copier *)

(** ** _handle_execution_event *)

Lemma open_signal_buy_eq (symbol_id volume : Z) :
  {| ts_symbol := _get_symbol_name symbol_id; ts_side := "BUY";
     ts_volume := volume; ts_symbol_id := Some symbol_id |} = open_signal symbol_id volume.
Proof. reflexivity. Qed.

(** Events of other accounts and execution types other than fill (3) and
    partial fill (4) are ignored. *)
Theorem exec_event_ignored_unless_master_fill (master_account_id : Z) (m : ExecutionMessage)
  (H : msg_accountId m <> master_account_id
       \/ (executionType (msg_event m) <> 3 /\ executionType (msg_event m) <> 4)) :
  _handle_execution_event master_account_id m = Ignored.
Proof.
  unfold _handle_execution_event.
  destruct H as [H|[H3 H4]].
  - destruct (Z.eqb_spec (msg_accountId m) master_account_id); [contradiction|reflexivity].
  - destruct (Z.eqb_spec (msg_accountId m) master_account_id); [|reflexivity].
    simpl. destruct (Z.eqb_spec (executionType (msg_event m)) 3); [contradiction|].
    destruct (Z.eqb_spec (executionType (msg_event m)) 4); [contradiction|reflexivity].
Qed.

(** A close is never replicated as an open and an open never as a close: the
    action follows [is_closing_order]. *)
Theorem exec_event_action_follows_classification (master_account_id : Z)
  (m : ExecutionMessage) :
  match _handle_execution_event master_account_id m with
  | CloseSlave _ _ _ => is_closing_order (msg_event m) = true
  | CopyOpen _ => is_closing_order (msg_event m) = false
  | _ => True
  end.
Proof.
  unfold _handle_execution_event.
  destruct (negb _); [exact I|]. destruct (negb _); [exact I|].
  destruct (trade_details m) as [[[s|] [t|]] [v|]]; try exact I.
  destruct (negb _ && negb _); [|exact I].
  destruct (is_closing_order (msg_event m)); reflexivity.
Qed.

(** When the deal carries symbol id 0 the handler reads all three details
    from the event itself; a [ProtoOAExecutionEvent] has no such fields, so
    the event is dropped as missing details even if [order.tradeData] is
    complete. *)
Theorem exec_event_zero_deal_symbol_dropped (master_account_id : Z)
  (m : ExecutionMessage) (d : Deal)
  (Hdeal : ev_deal (msg_event m) = Some d)
  (Hzero : deal_symbolId d = 0)
  (Hev : msg_symbolId m = None) :
  _handle_execution_event master_account_id m = Ignored
  \/ _handle_execution_event master_account_id m = MissingDetails.
Proof.
  unfold _handle_execution_event, trade_details.
  rewrite Hdeal, Hzero, Hev. simpl.
  destruct (negb _); [left; reflexivity|]. destruct (negb _); [left|right]; reflexivity.
Qed.

(** An opening fill on the master, read from its deal, is copied to the slave
    on the master's own instrument id, on the same side, with volume
    [max(MIN_LOT_SIZE, int(volume * 0.5))]. *)
Theorem exec_open_copied_same_instrument (master_account_id : Z) (fuel : nat)
  (st : Copier) (m : ExecutionMessage) (d : Deal) (side : Z)
  (Hacc : msg_accountId m = master_account_id)
  (Hty : executionType (msg_event m) = 3 \/ executionType (msg_event m) = 4)
  (Hdeal : ev_deal (msg_event m) = Some d)
  (Hsid : deal_symbolId d <> 0)
  (Hvol : deal_volume d <> 0)
  (Hside : msg_deal_tradeSide m = Some side)
  (Hopen : is_closing_order (msg_event m) = false)
  (Hauth : slave_authorized st = true) :
  exists signal, _handle_execution_event master_account_id m = CopyOpen signal
    /\ snd (_copy_to_slave fuel st signal)
       = Some {| nor_symbolId := deal_symbolId d;
                 nor_buy := Z.eqb side TRADE_SIDE_BUY;
                 nor_volume := Z.max MIN_LOT_SIZE
                                 (py_int (inject_Z (deal_volume d) * (1#2))) |}.
Proof.
  unfold _handle_execution_event.
  rewrite Hacc, Z.eqb_refl.
  assert (Ht : (Z.eqb (executionType (msg_event m)) 3
                || Z.eqb (executionType (msg_event m)) 4) = true)
    by (destruct Hty as [-> | ->]; reflexivity).
  rewrite Ht. simpl negb. cbv iota.
  unfold trade_details. rewrite Hdeal, Hside.
  assert (Hs : truthy_z (Some (deal_symbolId d)) = true)
    by (simpl; destruct (Z.eqb_spec (deal_symbolId d) 0); [contradiction|reflexivity]).
  rewrite Hs.
  destruct (Z.eqb_spec (deal_symbolId d) 0) as [E|_]; [contradiction|].
  destruct (Z.eqb_spec (deal_volume d) 0) as [E|_]; [contradiction|].
  rewrite Hopen. simpl.
  eexists; split; [reflexivity|].
  unfold _copy_to_slave. rewrite Hauth. simpl negb. cbv iota.
  match goal with
  | |- context [_calculate_adjusted_volume fuel st ?s ?v] =>
      destruct (adjusted_volume_fallback fuel st s v) as (st1 & -> & _)
  end.
  simpl.
  destruct (Z.eqb_spec (deal_symbolId d) 0) as [E|_]; [contradiction|].
  destruct (Z.eqb side TRADE_SIDE_BUY); reflexivity.
Qed.

(** ** Close replication: bounds, missing positions, open/close round trip *)

Lemma py_int_of_Qeq (q : Q) (a : Z) : (q == inject_Z a)%Q -> py_int q = a.
Proof.
  unfold Qeq, py_int; simpl. intros H.
  rewrite Z.mul_1_r in H. rewrite H. apply Z.quot_mul. lia.
Qed.

Lemma py_int_nonneg (q : Q) : (0 <= q)%Q -> 0 <= py_int q.
Proof.
  unfold Qle, py_int; simpl. intros H. rewrite Z.mul_1_r in H.
  apply Z.quot_pos; lia.
Qed.

Lemma close_step_gt0 (slave_syms : gmap Z SymbolData) (symbol_id : Z) :
  0 < close_step slave_syms symbol_id.
Proof.
  unfold close_step, MIN_LOT_SIZE.
  destruct (slave_syms !! symbol_id); [|simpl; lia].
  destruct (Z.leb_spec (volume_step s) 0); lia.
Qed.

Lemma symbol_id_name_mapped (i : Z) :
  In i mapped_symbol_ids -> _get_symbol_id (_get_symbol_name i) = i.
Proof.
  intros Hi. simpl in Hi.
  repeat (destruct Hi as [<-|Hi]; [reflexivity|]). contradiction.
Qed.

Lemma find_position_none (positions : list Position) (symbol_id : Z) :
  (forall p td, In p positions -> pos_tradeData p = Some td -> td_symbolId td <> symbol_id) ->
  find_position_to_close positions symbol_id = None.
Proof.
  induction positions as [|p r IH]; intros H; simpl; [reflexivity|].
  destruct (pos_tradeData p) as [td|] eqn:E.
  - destruct (Z.eqb_spec (td_symbolId td) symbol_id) as [Eq|_].
    + exfalso. exact (H p td (or_introl eq_refl) E Eq).
    + apply IH. intros p' td' Hin. apply H. right; exact Hin.
  - apply IH. intros p' td' Hin. apply H. right; exact Hin.
Qed.

(** For non-negative source volume, ratio and slave volume, the close volume
    lies between 0 and the slave's current volume, and the position is
    either closed fully or left with more than one step. *)
Theorem close_volume_bounded (ratio : Q) (step master_close_volume current_volume : Z)
  (Hs : 0 < step) (Hm : 0 <= master_close_volume) (Hr : (0 <= ratio)%Q)
  (Hc : 0 <= current_volume) :
  let v := compute_volume_to_close ratio step master_close_volume current_volume in
  0 <= v <= current_volume /\ (v = current_volume \/ step < current_volume - v).
Proof.
  unfold compute_volume_to_close; cbv zeta.
  assert (Hraw : 0 <= py_int (inject_Z master_close_volume * ratio)).
  { apply py_int_nonneg. apply Qmult_le_0_compat; [|exact Hr].
    unfold Qle; simpl; lia. }
  set (raw := py_int (inject_Z master_close_volume * ratio)) in *.
  assert (Hv : 0 <= raw / step * step)
    by (apply Z.mul_nonneg_nonneg; [apply Z.div_pos|]; lia).
  destruct (Z.leb_spec (current_volume - raw / step * step) step); lia.
Qed.

(** No close request is sent when no reconciled slave position carries the
    instrument. *)
Theorem close_without_matching_position (st : Copier) (positions : list Position)
  (symbol_id master_close_volume : Z)
  (H : forall p td, In p positions -> pos_tradeData p = Some td ->
                    td_symbolId td <> symbol_id) :
  _handle_positions_for_close st positions symbol_id master_close_volume = None.
Proof.
  unfold _handle_positions_for_close. rewrite find_position_none by exact H.
  reflexivity.
Qed.

(** Round trip: after an open of [V > 0] on an instrument of the id table is
    copied, a close of the same [V] on the master closes the slave position
    opened for it in full (whatever the slave's step). *)
Theorem open_then_close_full (fuel : nat) (st : Copier) (symbol_id volume position_id : Z)
  (Hmap : In symbol_id mapped_symbol_ids)
  (Hv : 0 < volume)
  (Hauth : slave_authorized st = true)
  (Hpid : position_id <> 0) :
  let st' := fst (_copy_to_slave fuel st (open_signal symbol_id volume)) in
  let adjusted := Z.max MIN_LOT_SIZE (py_int (inject_Z volume * (1#2))) in
  _handle_positions_for_close st'
    [{| positionId := position_id;
        pos_tradeData := Some {| td_symbolId := symbol_id; td_volume := adjusted |} |}]
    symbol_id volume
  = Some {| cpr_positionId := position_id; cpr_volume := adjusted |}.
Proof.
  cbv zeta. unfold _copy_to_slave. rewrite Hauth. simpl negb. cbv iota.
  destruct (adjusted_volume_fallback fuel st (ts_symbol (open_signal symbol_id volume))
              (ts_volume (open_signal symbol_id volume))) as (st1 & -> & _).
  simpl. destruct (Z.eqb_spec volume 0) as [E|_]; [lia|]. simpl.
  rewrite symbol_id_name_mapped by exact Hmap.
  set (adj := Z.max MIN_LOT_SIZE (py_int (inject_Z volume * (1#2)))).
  assert (Hadj : 100 <= adj) by (unfold adj, MIN_LOT_SIZE; lia).
  unfold _handle_positions_for_close. simpl. rewrite Z.eqb_refl.
  cbn [positionId td_volume].
  destruct (Z.eqb_spec position_id 0) as [E|_]; [contradiction|].
  destruct (Z.eqb_spec adj 0) as [E|_]; [lia|]. simpl.
  rewrite lookup_insert_eq. simpl.
  f_equal. f_equal.
  pose proof (close_step_gt0 (slave_symbols st1) symbol_id) as Hs.
  set (step := close_step (slave_symbols st1) symbol_id) in *.
  unfold compute_volume_to_close.
  rewrite (py_int_of_Qeq _ adj).
  - pose proof (Z.mod_pos_bound adj step Hs).
    pose proof (Z.div_mod adj step ltac:(lia)).
    destruct (Z.leb_spec (adj - adj / step * step) step); [reflexivity|lia].
  - field. intros E. unfold Qeq in E; simpl in E. lia.
Qed.

(** ** The pip-value cache: written, never read *)

Lemma pip_value_set_cache (st : Copier) (c : gmap Z (Q * Q)) (symbol_id : Z)
  (acct : account_type) :
  _calculate_pip_value (set_pip_values_cache st c) symbol_id acct
  = _calculate_pip_value st symbol_id acct.
Proof. reflexivity. Qed.

Lemma fst_after_handler (p : Copier * pyres Z) (symbol : string) (v : Z) :
  fst (match p with
       | (st', Ok r) => (st', Ok r)
       | (st', Exc _) => _calculate_simple_multiplier_volume st' symbol v
       end) = fst p.
Proof. destruct p as [s [r|e]]; reflexivity. Qed.

Lemma dynamic_pip_volume_state (fuel : nat) (st : Copier) (symbol : string)
  (original_volume : Z) :
  fst (_calculate_dynamic_pip_volume fuel st symbol original_volume)
  = if negb (Nat.eqb fuel 0)
       && truthy_q (_calculate_pip_value st (_get_symbol_id symbol) Master)
       && truthy_q (_calculate_pip_value st (_get_symbol_id symbol) Slave)
    then set_pip_values_cache st
           (<[_get_symbol_id symbol :=
               (default 0%Q (_calculate_pip_value st (_get_symbol_id symbol) Master),
                default 0%Q (_calculate_pip_value st (_get_symbol_id symbol) Slave))]>
              (pip_values_cache st))
    else st.
Proof.
  revert st. induction fuel as [|fuel IH]; intros st; [reflexivity|].
  simpl _calculate_dynamic_pip_volume. rewrite fst_after_handler.
  simpl negb. rewrite andb_true_l.
  destruct (truthy_q _ && truthy_q _) eqn:Hb; [|reflexivity].
  rewrite IH. rewrite !pip_value_set_cache, <- andb_assoc, Hb.
  destruct fuel; simpl; [reflexivity|].
  unfold set_pip_values_cache at 1; simpl.
  rewrite insert_insert_eq. reflexivity.
Qed.

Lemma adjusted_volume_state (fuel : nat) (st : Copier) (symbol : string)
  (original_volume : Z) :
  fst (_calculate_adjusted_volume fuel st symbol original_volume)
  = fst (_calculate_dynamic_pip_volume fuel st symbol original_volume).
Proof.
  unfold _calculate_adjusted_volume.
  destruct (_calculate_dynamic_pip_volume fuel st symbol original_volume) as [s [r|e]];
    reflexivity.
Qed.

(** The dynamic path's only effect on the copier: when both pip values are
    available (and the stack is not already exhausted) it records them in
    [pip_values_cache] under the symbol's id; otherwise it changes nothing.
    The recorded values never influence the volume (see the 50% result). *)
Theorem dynamic_pip_volume_cache_effect (fuel : nat) (st : Copier) (symbol : string)
  (original_volume : Z) :
  let symbol_id := _get_symbol_id symbol in
  let master_pip_value := _calculate_pip_value st symbol_id Master in
  let slave_pip_value := _calculate_pip_value st symbol_id Slave in
  fst (_calculate_adjusted_volume fuel st symbol original_volume)
  = if negb (Nat.eqb fuel 0) && truthy_q master_pip_value && truthy_q slave_pip_value
    then set_pip_values_cache st
           (<[symbol_id := (default 0%Q master_pip_value, default 0%Q slave_pip_value)]>
              (pip_values_cache st))
    else st.
Proof.
  cbv zeta. rewrite adjusted_volume_state. apply dynamic_pip_volume_state.
Qed.

(** ** Monotonicity of the sizing rules *)

Lemma py_int_floor (q : Q) : (0 <= q)%Q -> py_int q = Qfloor q.
Proof.
  destruct q as [n d]. unfold Qle, py_int, Qfloor; simpl. intros H.
  apply Z.quot_div_nonneg; lia.
Qed.

Lemma py_int_mono (q1 q2 : Q) : (0 <= q1)%Q -> (q1 <= q2)%Q -> py_int q1 <= py_int q2.
Proof.
  intros H0 H. rewrite !py_int_floor; [apply Qfloor_resp_le; exact H| |exact H0].
  apply (Qle_trans _ q1); assumption.
Qed.

Lemma py_int_opp (q : Q) : py_int (- q) = - py_int q.
Proof. destruct q as [n d]. unfold py_int; simpl. apply Z.quot_opp_l. lia. Qed.

(** Truncation toward zero is monotone on all rationals. *)
Lemma py_int_mono_all (q1 q2 : Q) : (q1 <= q2)%Q -> py_int q1 <= py_int q2.
Proof.
  intros H.
  destruct (Qlt_le_dec q1 0) as [H1|H1]; [|exact (py_int_mono q1 q2 H1 H)].
  assert (Hn1 : py_int q1 <= 0).
  { assert (0 <= py_int (- q1)); [|rewrite py_int_opp in *; lia].
    apply py_int_nonneg. destruct q1 as [n d]. unfold Qlt, Qle in *; simpl in *. lia. }
  destruct (Qlt_le_dec q2 0) as [H2|H2].
  - assert (py_int (- q2) <= py_int (- q1)); [|rewrite !py_int_opp in *; lia].
    apply py_int_mono.
    + destruct q2 as [n d]. unfold Qlt, Qle in *; simpl in *. lia.
    + destruct q1 as [n1 d1], q2 as [n2 d2]. unfold Qle in *; simpl in *. lia.
  - pose proof (py_int_nonneg q2 H2). lia.
Qed.

(** A larger source volume never gives a smaller destination volume: in the
    single-connection copier (any stack depth, any reference data, any symbol)
    and in the balance-based sizing of trade_copier.py (larger balance of any
    sign, same non-negative percentage). *)
Theorem adjusted_volume_monotone (fuel1 fuel2 : nat) (st1 st2 : Copier)
  (symbol1 symbol2 : string) (v1 v2 : Z) (lot_percentage b1 b2 : Q)
  (Hv : v1 <= v2) (Hp : (0 <= lot_percentage)%Q) (Hb : (b1 <= b2)%Q) :
  match snd (_calculate_adjusted_volume fuel1 st1 symbol1 v1),
        snd (_calculate_adjusted_volume fuel2 st2 symbol2 v2) with
  | Ok a1, Ok a2 => a1 <= a2
  | _, _ => False
  end
  /\ _calculate_adjusted_volume_balance lot_percentage v1 b1
     <= _calculate_adjusted_volume_balance lot_percentage v2 b2.
Proof.
  split.
  - destruct (adjusted_volume_fallback fuel1 st1 symbol1 v1) as (s1 & -> & _).
    destruct (adjusted_volume_fallback fuel2 st2 symbol2 v2) as (s2 & -> & _).
    simpl.
    assert (py_int (inject_Z v1 * (1#2)) <= py_int (inject_Z v2 * (1#2))); [|lia].
    apply py_int_mono_all.
    apply Qmult_le_compat_r; [rewrite <- Zle_Qle; exact Hv|discriminate].
  - unfold _calculate_adjusted_volume_balance.
    assert (py_int (b1 * lot_percentage * inject_Z 10)
            <= py_int (b2 * lot_percentage * inject_Z 10)); [|lia].
    apply py_int_mono_all.
    apply Qmult_le_compat_r; [apply Qmult_le_compat_r; assumption|discriminate].
Qed.

(** ** config_helper.calculate_slave_volume *)

Lemma str_get_in {V : Type} (d : list (string * V)) (k : string) (v : V) :
  str_get d k = Some v -> In v (map snd d).
Proof.
  induction d as [|[k' v'] d IH]; simpl; [discriminate|].
  destruct (String.eqb k k'); [intros [= ->]; left; reflexivity|].
  intros H; right; exact (IH H).
Qed.

Lemma select_multiplier_range (symbol : string) :
  (1#10 <= select_multiplier symbol <= 1#2)%Q.
Proof.
  unfold select_multiplier, GLOBAL_LOT_MULTIPLIER.
  destruct (str_get LOT_SIZE_MULTIPLIERS symbol) as [m|] eqn:E.
  - apply str_get_in in E. simpl in E.
    repeat (destruct E as [<-|E]; [split; vm_compute; discriminate|]). contradiction.
  - split; vm_compute; discriminate.
Qed.

(** The helper never reports less than 0.01 lot, reports the multiplier the
    selection rule picks, which always lies in [0.1, 0.5] (within
    [MAX_LOT_MULTIPLIER]), and a larger master volume never gives a smaller
    slave volume. *)
Theorem calculate_slave_volume_props (symbol : string) (lots1 lots2 : Q)
  (H0 : (0 <= lots1)%Q) (H : (lots1 <= lots2)%Q) :
  (1#100 <= fst (calculate_slave_volume symbol lots1))%Q
  /\ snd (calculate_slave_volume symbol lots1) = select_multiplier symbol
  /\ (1#10 <= select_multiplier symbol <= 1#2)%Q
  /\ (select_multiplier symbol <= MAX_LOT_MULTIPLIER)%Q
  /\ (fst (calculate_slave_volume symbol lots1) <= fst (calculate_slave_volume symbol lots2))%Q.
Proof.
  destruct (select_multiplier_range symbol) as [Hlo Hhi].
  unfold calculate_slave_volume; simpl fst; simpl snd.
  assert (Hmono : Z.max 1000 (py_int (inject_Z (py_int (lots1 * inject_Z 100000))
                                       * select_multiplier symbol))
                  <= Z.max 1000 (py_int (inject_Z (py_int (lots2 * inject_Z 100000))
                                       * select_multiplier symbol))).
  { assert (Hm0 : (0 <= select_multiplier symbol)%Q)
      by (apply (Qle_trans _ (1#10)); [discriminate|exact Hlo]).
    assert (Hl1 : (0 <= lots1 * inject_Z 100000)%Q)
      by (apply Qmult_le_0_compat; [exact H0|discriminate]).
    assert (Hmic : py_int (lots1 * inject_Z 100000) <= py_int (lots2 * inject_Z 100000))
      by (apply py_int_mono; [exact Hl1|apply Qmult_le_compat_r; [exact H|discriminate]]).
    assert (py_int (inject_Z (py_int (lots1 * inject_Z 100000)) * select_multiplier symbol)
            <= py_int (inject_Z (py_int (lots2 * inject_Z 100000)) * select_multiplier symbol));
      [|lia].
    apply py_int_mono.
    - apply Qmult_le_0_compat; [|exact Hm0].
      pose proof (py_int_nonneg _ Hl1). unfold Qle; simpl; lia.
    - apply Qmult_le_compat_r; [rewrite <- Zle_Qle; exact Hmic|exact Hm0]. }
  split; [|split; [reflexivity|split; [split; assumption|split]]].
  - unfold Qdiv. rewrite Qmult_comm.
    apply (Qle_trans _ (/ inject_Z 100000 * inject_Z 1000)); [vm_compute; discriminate|].
    apply Qmult_le_l; [reflexivity|]. rewrite <- Zle_Qle. lia.
  - apply (Qle_trans _ (1#2)); [exact Hhi|discriminate].
  - unfold Qdiv. apply Qmult_le_compat_r; [rewrite <- Zle_Qle; exact Hmono|discriminate].
Qed.

(** ** trade_copier.py: symbol mapping *)

(** In trade_copier.py the order placed for a master execution on instrument
    [i] (the signal carries [_get_symbol_name(i)], [place_order] maps it back
    with [_get_symbol_id]) goes to [i] for ids 1..7 and to instrument 1
    (EURUSD) for every other id or a missing id. *)
Theorem tc_order_symbol_id (symbol_id : option Z) :
  tc_get_symbol_id (tc_get_symbol_name symbol_id)
  = match symbol_id with
    | Some i => if (1 <=? i) && (i <=? 7) then i else 1
    | None => 1
    end.
Proof.
  destruct symbol_id as [i|]; [|reflexivity].
  unfold tc_get_symbol_name.
  destruct (z_get tc_id_to_symbol i) as [s|] eqn:E.
  - assert (Hin : In i (map fst tc_id_to_symbol)).
    { destruct (decide (In i (map fst tc_id_to_symbol))) as [Hi|Hi]; [exact Hi|].
      apply z_get_none in Hi. congruence. }
    simpl in Hin. repeat (destruct Hin as [<-|Hin]; [simpl in E; injection E as <-; reflexivity|]).
    contradiction.
  - apply z_get_none in E. simpl in E.
    destruct (Z.leb_spec 1 i), (Z.leb_spec i 7); simpl; try reflexivity.
    exfalso. apply E. lia.
Qed.

(** ** Reference data: invariants of the event handlers *)

Lemma acct_view_set (st : Copier) (acct acct' : account_type) (v : AccountView) :
  acct_view (set_acct st acct v) acct' = if decide (acct = acct') then v else acct_view st acct'.
Proof. destruct acct, acct', v; reflexivity. Qed.

Lemma acct_view_set_same (st : Copier) (acct : account_type) (v : AccountView) :
  acct_view (set_acct st acct v) acct = v.
Proof. destruct acct, v; reflexivity. Qed.

Lemma acct_view_set_slave_authorized (st : Copier) (b : bool) (acct : account_type) :
  acct_view (set_slave_authorized st b) acct = acct_view st acct.
Proof. destruct acct; reflexivity. Qed.

Lemma acct_view_copy (fuel : nat) (st : Copier) (signal : TradeSignal) (acct : account_type) :
  acct_view (fst (_copy_to_slave fuel st signal)) acct = acct_view st acct.
Proof.
  assert (HX : acct_view (fst (_calculate_adjusted_volume fuel st (ts_symbol signal)
                                 (ts_volume signal))) acct = acct_view st acct).
  { rewrite adjusted_volume_state, dynamic_pip_volume_state.
    destruct (_ && _ && _); [destruct acct|]; reflexivity. }
  unfold _copy_to_slave. destruct (negb (slave_authorized st)); [reflexivity|].
  destruct (_calculate_adjusted_volume fuel st (ts_symbol signal) (ts_volume signal))
    as [st1 [v|e]]; simpl in HX |- *; [|exact HX].
  destruct (negb _); [|exact HX]. rewrite <- HX. destruct acct; reflexivity.
Qed.

Lemma fold_insert_preserves {A B : Type} (P : gmap Z A -> Prop) (f : B -> Z) (g : B -> A)
  (l : list B) (m : gmap Z A) :
  P m -> (forall m b, P m -> P (<[f b := g b]> m)) ->
  P (fold_left (fun d b => <[f b := g b]> d) l m).
Proof.
  intros Hm Hstep. revert m Hm. induction l as [|b l IH]; intros m Hm; simpl; auto.
Qed.

Lemma fold_insert_notin {A B : Type} (f : B -> Z) (g : B -> A) (l : list B) (m : gmap Z A)
  (k : Z) :
  ~ In k (map f l) -> fold_left (fun d b => <[f b := g b]> d) l m !! k = m !! k.
Proof.
  revert m. induction l as [|b l IH]; intros m Hk; simpl in *; [reflexivity|].
  rewrite IH by tauto. apply lookup_insert_ne. tauto.
Qed.

Lemma fold_insert_in {A B : Type} (f : B -> Z) (g : B -> A) (l : list B) (m : gmap Z A)
  (k : Z) :
  In k (map f l) ->
  exists b, In b l /\ f b = k /\ fold_left (fun d b => <[f b := g b]> d) l m !! k = Some (g b).
Proof.
  revert m. induction l as [|b l IH]; intros m Hk; simpl in *; [contradiction|].
  destruct (in_dec Z.eq_dec k (map f l)) as [Hin|Hin].
  - destruct (IH (<[f b := g b]> m) Hin) as (b' & ? & ? & ?). eauto.
  - destruct Hk as [<-|Hk]; [|contradiction].
    exists b. rewrite fold_insert_notin by exact Hin.
    split; [auto|split; [reflexivity|apply lookup_insert_eq]].
Qed.

Lemma fold_insert_nonempty {A B : Type} (f : B -> Z) (g : B -> A) (b : B) (l : list B)
  (m : gmap Z A) :
  fold_left (fun d b => <[f b := g b]> d) (b :: l) m <> ∅.
Proof.
  simpl. apply (fold_insert_preserves (fun d => d <> ∅)); intros; apply insert_non_empty.
Qed.

Lemma fold_insert_keys {A B : Type} (key : A -> Z) (f : B -> Z) (g : B -> A)
  (l : list B) (m : gmap Z A) :
  (forall b, key (g b) = f b) ->
  (forall k a, m !! k = Some a -> key a = k) ->
  forall k a, fold_left (fun d b => <[f b := g b]> d) l m !! k = Some a -> key a = k.
Proof.
  intros Hg Hm. apply (fold_insert_preserves (fun d => forall k a, d !! k = Some a -> key a = k));
    [exact Hm|].
  intros d b Hd k a Hk. apply lookup_insert_Some in Hk as [[<- <-]|[_ Hk]]; eauto.
Qed.

Lemma fold_insert_grows {A B : Type} (f : B -> Z) (g : B -> A) (l : list B) (m : gmap Z A)
  (k : Z) :
  is_Some (m !! k) -> is_Some (fold_left (fun d b => <[f b := g b]> d) l m !! k).
Proof.
  intros H. apply (fold_insert_preserves (fun d => is_Some (d !! k))); [exact H|].
  intros d b Hd. apply lookup_insert_is_Some'. auto.
Qed.

Lemma nonempty_true {A} (d : gmap Z A) : nonempty d = true -> d <> ∅.
Proof. unfold nonempty. intros H. apply negb_true_iff, bool_decide_eq_false in H. exact H. Qed.

Lemma inv_set (st : Copier) (acct : account_type) (v : AccountView) :
  copier_inv st -> account_inv v -> copier_inv (set_acct st acct v).
Proof.
  intros H Hv acct'. rewrite acct_view_set. case_decide; subst; auto.
Qed.

Lemma inv_check (st : Copier) (acct : account_type) :
  copier_inv st -> copier_inv (_check_data_loading_complete st acct).
Proof.
  intros H. unfold _check_data_loading_complete. cbv zeta.
  destruct (v_deposit (acct_view st acct)) as [d|] eqn:Hd; cbn [andb]; [|exact H].
  destruct (nonempty (v_assets (acct_view st acct))) eqn:Ha; cbn [andb]; [|exact H].
  destruct (nonempty (v_symbols (acct_view st acct))) eqn:Hs; [|exact H].
  apply inv_set; [exact H|].
  destruct (H acct) as (_ & H2 & H3 & H4).
  split; [|split; [|split]]; simpl; auto.
  - intros _. apply nonempty_true in Ha, Hs. simpl in Ha, Hs. split; [discriminate|auto].
  - rewrite <- Hd. exact H2.
Qed.

(** A view that changes only the symbol table, keeping its keys and its
    non-emptiness, keeps the invariant. *)
Lemma account_inv_symbols (v : AccountView) (syms : gmap Z SymbolData) :
  account_inv v -> syms <> ∅ ->
  (forall k s, syms !! k = Some s -> sd_symbol_id s = k) ->
  account_inv {| v_symbols := syms; v_assets := v_assets v; v_deposit := v_deposit v;
                 v_loaded := v_loaded v |}.
Proof.
  intros (H1 & H2 & H3 & H4) Hne Hk. split; [|split; [|split]]; simpl; auto.
  intros Hl. destruct (H1 Hl) as (? & ? & _). auto.
Qed.

Lemma account_inv_assets (v : AccountView) (assets : gmap Z AssetData) :
  account_inv v -> assets <> ∅ ->
  (forall k a, assets !! k = Some a -> asset_id a = k) ->
  account_inv {| v_symbols := v_symbols v; v_assets := assets; v_deposit := v_deposit v;
                 v_loaded := v_loaded v |}.
Proof.
  intros (H1 & H2 & H3 & H4) Hne Hk. split; [|split; [|split]]; simpl; auto.
  intros Hl. destruct (H1 Hl) as (? & _ & ?). auto.
Qed.

(** The spot handler updates the prices of one entry of one account. *)
Lemma spot_event_shape (master_account_id slave_account_id : Z) (st : Copier)
  (account_id symbol_id : Z) (bid ask : option Z) :
  _handle_spot_event master_account_id slave_account_id st account_id symbol_id bid ask = st
  \/ exists acct sd b a,
       acct_symbols st acct !! symbol_id = Some sd
       /\ _handle_spot_event master_account_id slave_account_id st account_id symbol_id bid ask
          = set_acct st acct
              {| v_symbols := <[symbol_id := set_prices sd b a]> (acct_symbols st acct);
                 v_assets := acct_assets st acct;
                 v_deposit := acct_deposit_asset_id st acct;
                 v_loaded := acct_data_loaded st acct |}.
Proof.
  unfold _handle_spot_event. cbv zeta.
  destruct (account_id =? master_account_id);
    [|destruct (account_id =? slave_account_id); [|left; reflexivity]].
  - cbn iota. destruct (v_symbols (acct_view st Master) !! symbol_id) as [sd|] eqn:E;
      [|left; reflexivity].
    right. exists Master, sd. do 2 eexists. split; [exact E|reflexivity].
  - cbn iota. destruct (v_symbols (acct_view st Slave) !! symbol_id) as [sd|] eqn:E;
      [|left; reflexivity].
    right. exists Slave, sd. do 2 eexists. split; [exact E|reflexivity].
Qed.

(** Every handler that changes the copier keeps, for both accounts: the
    data-loaded flag only set together with a deposit asset id and non-empty
    asset and symbol tables; the deposit asset id never 0; every table entry
    stored under its own id. *)
Theorem copier_step_preserves_inv (master_account_id slave_account_id : Z) (st st' : Copier)
  (Hinv : copier_inv st) (Hstep : copier_step master_account_id slave_account_id st st') :
  copier_inv st'.
Proof.
  destruct Hstep as [st acct dep|st acct assets|st acct symbols|st account_id symbol_id bid ask
                    |fuel st signal|st account_id|st].
  - unfold _handle_trader_info. destruct (truthy_z dep) eqn:Ht; [|exact Hinv].
    apply inv_set; [exact Hinv|].
    destruct dep as [z|]; [|discriminate]. simpl in Ht. apply negb_true_iff, Z.eqb_neq in Ht.
    destruct (Hinv acct) as (H1 & H2 & H3 & H4).
    split; [|split; [|split]]; simpl; auto.
    + intros Hl. destruct (H1 Hl) as (_ & ? & ?). split; [discriminate|auto].
    + intros E. injection E. exact Ht.
  - destruct assets as [|a0 rest]; [exact Hinv|].
    apply inv_check, inv_set; [exact Hinv|].
    apply account_inv_assets; [apply Hinv|apply fold_insert_nonempty|].
    apply fold_insert_keys; [reflexivity|]. apply Hinv.
  - destruct symbols as [|p0 rest]; [exact Hinv|].
    apply inv_check, inv_set; [exact Hinv|].
    apply account_inv_symbols; [apply Hinv|apply fold_insert_nonempty|].
    apply fold_insert_keys; [reflexivity|]. apply Hinv.
  - destruct (spot_event_shape master_account_id slave_account_id st account_id symbol_id bid ask)
      as [->|(acct & sd & b & a & Hsd & ->)]; [exact Hinv|].
    apply inv_set; [exact Hinv|].
    apply (account_inv_symbols (acct_view st acct)); [apply Hinv|apply insert_non_empty|].
    intros k s Hk. apply lookup_insert_Some in Hk as [[<- <-]|[_ Hk]].
    + simpl. destruct (Hinv acct) as (_ & _ & _ & H4). exact (H4 _ _ Hsd).
    + destruct (Hinv acct) as (_ & _ & _ & H4). exact (H4 _ _ Hk).
  - intros acct. rewrite acct_view_copy. apply Hinv.
  - unfold _handle_account_auth.
    destruct (_ =? _); [exact Hinv|]. destruct (_ =? _); [|exact Hinv].
    intros acct. rewrite acct_view_set_slave_authorized. apply Hinv.
  - intros acct. unfold _on_disconnected. rewrite acct_view_set_slave_authorized. apply Hinv.
Qed.

Lemma view_grows_refl (v : AccountView) : view_grows v v.
Proof. repeat split; auto. Qed.

Lemma check_grows (st : Copier) (acct acct' : account_type) :
  view_grows (acct_view st acct') (acct_view (_check_data_loading_complete st acct) acct').
Proof.
  unfold _check_data_loading_complete.
  destruct (_ && _ && _); [|apply view_grows_refl].
  rewrite acct_view_set. case_decide; [subst|apply view_grows_refl].
  repeat split; auto.
Qed.

Lemma view_grows_trans (v1 v2 v3 : AccountView) :
  view_grows v1 v2 -> view_grows v2 v3 -> view_grows v1 v3.
Proof.
  intros (A1 & B1 & C1 & D1) (A2 & B2 & C2 & D2). repeat split; auto.
Qed.

(** The handlers only add reference data: an account once loaded stays
    loaded, a stored instrument or asset id is never dropped, and a known
    deposit asset id is never forgotten. *)
Theorem copier_step_grows (master_account_id slave_account_id : Z) (st st' : Copier)
  (Hstep : copier_step master_account_id slave_account_id st st') :
  forall acct, view_grows (acct_view st acct) (acct_view st' acct).
Proof.
  intros acct'.
  destruct Hstep as [st acct dep|st acct assets|st acct symbols|st account_id symbol_id bid ask
                    |fuel st signal|st account_id|st].
  - unfold _handle_trader_info. destruct (truthy_z dep) eqn:Ht; [|apply view_grows_refl].
    rewrite acct_view_set. case_decide; [subst|apply view_grows_refl].
    destruct dep; [|discriminate]. repeat split; simpl; auto; discriminate.
  - destruct assets as [|a0 rest]; [apply view_grows_refl|].
    eapply view_grows_trans; [|apply check_grows].
    rewrite acct_view_set. case_decide; [subst|apply view_grows_refl].
    repeat split; simpl; auto. intros k Hk. apply fold_insert_grows, lookup_insert_is_Some'. auto.
  - destruct symbols as [|p0 rest]; [apply view_grows_refl|].
    eapply view_grows_trans; [|apply check_grows].
    rewrite acct_view_set. case_decide; [subst|apply view_grows_refl].
    repeat split; simpl; auto. intros k Hk. apply fold_insert_grows, lookup_insert_is_Some'. auto.
  - destruct (spot_event_shape master_account_id slave_account_id st account_id symbol_id bid ask)
      as [->|(acct & sd & b & a & Hsd & ->)]; [apply view_grows_refl|].
    rewrite acct_view_set. case_decide; [subst|apply view_grows_refl].
    repeat split; simpl; auto. intros k Hk. apply lookup_insert_is_Some'. auto.
  - rewrite acct_view_copy. apply view_grows_refl.
  - unfold _handle_account_auth.
    destruct (_ =? _); [apply view_grows_refl|]. destruct (_ =? _); [|apply view_grows_refl].
    rewrite acct_view_set_slave_authorized. apply view_grows_refl.
  - unfold _on_disconnected. rewrite acct_view_set_slave_authorized. apply view_grows_refl.
Qed.

Lemma acct_data_loaded_set (st : Copier) (acct : account_type) (v : AccountView) :
  acct_data_loaded (set_acct st acct v) acct = v_loaded v.
Proof. destruct acct; reflexivity. Qed.

Lemma acct_symbols_set (st : Copier) (acct : account_type) (v : AccountView) :
  acct_symbols (set_acct st acct v) acct = v_symbols v.
Proof. destruct acct; reflexivity. Qed.

Lemma acct_assets_set (st : Copier) (acct : account_type) (v : AccountView) :
  acct_assets (set_acct st acct v) acct = v_assets v.
Proof. destruct acct; reflexivity. Qed.

Lemma acct_deposit_set (st : Copier) (acct : account_type) (v : AccountView) :
  acct_deposit_asset_id (set_acct st acct v) acct = v_deposit v.
Proof. destruct acct; reflexivity. Qed.

Lemma nonempty_fold {A B : Type} (f : B -> Z) (g : B -> A) (b : B) (l : list B)
  (m : gmap Z A) :
  nonempty (fold_left (fun d b => <[f b := g b]> d) (b :: l) m) = true.
Proof.
  unfold nonempty. rewrite bool_decide_eq_false_2; [reflexivity|apply fold_insert_nonempty].
Qed.

Lemma check_loaded (st : Copier) (acct : account_type) :
  acct_data_loaded (_check_data_loading_complete st acct) acct
  = acct_data_loaded st acct
    || (bool_decide (is_Some (acct_deposit_asset_id st acct))
        && nonempty (acct_assets st acct) && nonempty (acct_symbols st acct)).
Proof.
  unfold _check_data_loading_complete. cbv zeta.
  replace (match v_deposit (acct_view st acct) with Some _ => true | None => false end)
    with (bool_decide (is_Some (acct_deposit_asset_id st acct))).
  2:{ simpl. destruct (acct_deposit_asset_id st acct); [rewrite bool_decide_eq_true_2 by eauto|
        rewrite bool_decide_eq_false_2 by (intros [? ?]; discriminate)]; reflexivity. }
  simpl v_assets; simpl v_symbols.
  destruct (_ && _ && _); [rewrite acct_data_loaded_set, orb_true_r; reflexivity|].
  rewrite orb_false_r. reflexivity.
Qed.

(** [<acct>_data_loaded] is only raised by an asset-list or symbol-list
    response: a trader-info response never changes it (so an account whose
    trader info arrives after both lists stays not loaded), and a non-empty
    list response raises it exactly when the deposit asset id is known and
    the other table is non-empty. *)
Theorem data_loaded_flag_updates (st : Copier) (acct : account_type) :
  (forall deposit_asset_id,
     acct_data_loaded (_handle_trader_info st acct deposit_asset_id) acct
     = acct_data_loaded st acct)
  /\ (forall asset rest,
        acct_data_loaded (_handle_asset_list st acct (asset :: rest)) acct
        = acct_data_loaded st acct
          || (bool_decide (is_Some (acct_deposit_asset_id st acct))
              && nonempty (acct_symbols st acct)))
  /\ (forall symbol rest,
        acct_data_loaded (_handle_symbol_list st acct (symbol :: rest)) acct
        = acct_data_loaded st acct
          || (bool_decide (is_Some (acct_deposit_asset_id st acct))
              && nonempty (acct_assets st acct))).
Proof.
  split; [|split].
  - intros dep. unfold _handle_trader_info.
    destruct (truthy_z dep); [|reflexivity]. rewrite acct_data_loaded_set. reflexivity.
  - intros a rest. unfold _handle_asset_list. cbv zeta.
    rewrite check_loaded, acct_data_loaded_set, acct_deposit_set, acct_assets_set,
      acct_symbols_set.
    unfold acct_view. cbn [v_assets v_symbols v_deposit v_loaded].
    rewrite (nonempty_fold pa_assetId asset_data_of).
    rewrite andb_true_r. reflexivity.
  - intros p rest. unfold _handle_symbol_list. cbv zeta.
    rewrite check_loaded, acct_data_loaded_set, acct_deposit_set, acct_assets_set,
      acct_symbols_set.
    unfold acct_view. cbn [v_assets v_symbols v_deposit v_loaded].
    rewrite (nonempty_fold ps_symbolId symbol_data_of).
    rewrite andb_true_r. reflexivity.
Qed.

(** With no quote yet, an instrument only has a pip value in the deposit
    currency. *)
Lemma pip_value_unquoted (st : Copier) (acct : account_type) (symbol_id : Z)
  (sd : SymbolData) :
  acct_symbols st acct !! symbol_id = Some sd -> current_bid sd = 0%Q ->
  _calculate_pip_value st symbol_id acct = None
  \/ _calculate_pip_value st symbol_id acct
     = Some (1 / Qpower (inject_Z 10) (pip_position sd) * inject_Z (lot_size sd))%Q.
Proof.
  intros Hsd Hbid. unfold _calculate_pip_value. rewrite Hsd.
  destruct (acct_deposit_asset_id st acct) as [dep|]; [|auto].
  destruct (dep =? 0); [auto|].
  destruct (acct_assets st acct !! dep); [|auto].
  destruct (Z.eqb _ _); [auto|]. rewrite Hbid. left. reflexivity.
Qed.

(** Right after a symbol-list response, each listed instrument has a fresh
    entry with bid and ask 0.0, the deposit asset id and asset table are
    those of before, and its pip value is exactly the same-currency value
    [pip_size * lot_size] when its quote asset (falling back to the deposit
    asset) is the deposit asset, and [None] otherwise: the reload discards
    the prices received so far, and a cross-currency instrument has no pip
    value. *)
Theorem symbol_reload_resets_prices (st : Copier) (acct : account_type)
  (symbols : list ProtoSymbol) (symbol_id : Z)
  (Hin : In symbol_id (map ps_symbolId symbols)) :
  let st' := _handle_symbol_list st acct symbols in
  exists sd, acct_symbols st' acct !! symbol_id = Some sd
    /\ current_bid sd = 0%Q /\ current_ask sd = 0%Q
    /\ acct_deposit_asset_id st' acct = acct_deposit_asset_id st acct
    /\ acct_assets st' acct = acct_assets st acct
    /\ _calculate_pip_value st' symbol_id acct
       = match acct_deposit_asset_id st acct with
         | Some dep =>
             if dep =? 0 then None else
             match acct_assets st acct !! dep with
             | Some deposit_asset =>
                 if asset_id (default deposit_asset (acct_assets st acct !! quote_asset_id sd))
                    =? asset_id deposit_asset
                 then Some (1 / Qpower (inject_Z 10) (pip_position sd)
                            * inject_Z (lot_size sd))%Q
                 else None
             | None => None
             end
         | None => None
         end.
Proof.
  cbv zeta.
  destruct symbols as [|p0 rest]; [contradiction|].
  assert (Hview : forall a,
            acct_symbols (_handle_symbol_list st acct (p0 :: rest)) a
            = acct_symbols (set_acct st acct
                {| v_symbols := fold_left (fun d p => <[ps_symbolId p := symbol_data_of p]> d)
                                  (p0 :: rest) (acct_symbols st acct);
                   v_assets := acct_assets st acct;
                   v_deposit := acct_deposit_asset_id st acct;
                   v_loaded := acct_data_loaded st acct |}) a
            /\ acct_deposit_asset_id (_handle_symbol_list st acct (p0 :: rest)) a
               = acct_deposit_asset_id st a
            /\ acct_assets (_handle_symbol_list st acct (p0 :: rest)) a = acct_assets st a).
  { intros a. unfold _handle_symbol_list. cbv zeta.
    unfold _check_data_loading_complete. destruct (_ && _ && _);
      rewrite ?acct_view_set_same; destruct acct, a; repeat split; reflexivity. }
  destruct (Hview acct) as (Hsyms & Hdep & Hassets).
  rewrite acct_symbols_set in Hsyms. cbn [v_symbols] in Hsyms.
  destruct (fold_insert_in ps_symbolId symbol_data_of (p0 :: rest) (acct_symbols st acct)
              symbol_id Hin) as (p & _ & Hp & Hlookup).
  exists (symbol_data_of p). rewrite Hsyms.
  split; [exact Hlookup|]. split; [reflexivity|]. split; [reflexivity|].
  split; [exact Hdep|]. split; [exact Hassets|].
  unfold _calculate_pip_value. rewrite Hsyms, Hlookup, Hdep, Hassets.
  destruct (acct_deposit_asset_id st acct) as [dep|]; [|reflexivity].
  destruct (dep =? 0); [reflexivity|].
  destruct (acct_assets st acct !! dep) as [da|]; [|reflexivity].
  destruct (acct_assets st acct !! quote_asset_id (symbol_data_of p)) as [qa|];
    cbn [default]; destruct (Z.eqb _ _); reflexivity.
Qed.

Lemma convert_relative_price_zero (x : Z) (sd : SymbolData) :
  (_convert_relative_price x sd == 0)%Q -> x = 0.
Proof.
  unfold _convert_relative_price. intros H.
  assert (Hp : ~ (Qpower (inject_Z 10) (sd_digits sd) == 0)%Q)
    by (apply Qpower_not_0; discriminate).
  assert (E : (inject_Z x == inject_Z x / Qpower (inject_Z 10) (sd_digits sd)
                             * Qpower (inject_Z 10) (sd_digits sd))%Q) by (field; exact Hp).
  rewrite H, Qmult_0_l in E. apply inject_Z_injective. exact E.
Qed.

Lemma convert_relative_mid_zero (x y : Z) (sd : SymbolData) :
  ((_convert_relative_price x sd + _convert_relative_price y sd) / 2 == 0)%Q -> x + y = 0.
Proof.
  unfold _convert_relative_price. intros H.
  assert (Hp : ~ (Qpower (inject_Z 10) (sd_digits sd) == 0)%Q)
    by (apply Qpower_not_0; discriminate).
  assert (E : (inject_Z (x + y)
               == (inject_Z x / Qpower (inject_Z 10) (sd_digits sd)
                   + inject_Z y / Qpower (inject_Z 10) (sd_digits sd)) / 2
                  * 2 * Qpower (inject_Z 10) (sd_digits sd))%Q)
    by (rewrite inject_Z_plus; field; exact Hp).
  rewrite H, !Qmult_0_l in E. apply inject_Z_injective. exact E.
Qed.

(** A spot event for an account with non-zero bid and ask on a loaded
    instrument quoted in another currency than the deposit makes its pip value
    available: pip size / mid price * lot size, with the mid price of the
    converted quotes.  When the two account ids coincide the event goes to the
    master. *)
Theorem spot_event_gives_pip_value (master_account_id slave_account_id : Z) (st : Copier)
  (acct : account_type) (account_id symbol_id bid ask dep : Z) (sd : SymbolData)
  (deposit_asset : AssetData)
  (Hacct : (account_id = master_account_id /\ acct = Master)
           \/ (account_id <> master_account_id /\ account_id = slave_account_id
               /\ acct = Slave))
  (Hsd : acct_symbols st acct !! symbol_id = Some sd)
  (Hdep : acct_deposit_asset_id st acct = Some dep) (Hdep0 : dep <> 0)
  (Hda : acct_assets st acct !! dep = Some deposit_asset)
  (Hquote : asset_id (default deposit_asset (acct_assets st acct !! quote_asset_id sd))
            <> asset_id deposit_asset)
  (Hbid : bid <> 0) (Hask : ask <> 0) (Hmid : bid + ask <> 0) :
  _calculate_pip_value
    (_handle_spot_event master_account_id slave_account_id st account_id symbol_id
       (Some bid) (Some ask)) symbol_id acct
  = Some (1 / Qpower (inject_Z 10) (pip_position sd)
          / ((_convert_relative_price bid sd + _convert_relative_price ask sd) / 2)
          * inject_Z (lot_size sd))%Q.
Proof.
  assert (Hst : _handle_spot_event master_account_id slave_account_id st account_id symbol_id
                  (Some bid) (Some ask)
                = set_acct st acct
                    {| v_symbols := <[symbol_id := set_prices sd
                                         (_convert_relative_price bid sd)
                                         (_convert_relative_price ask sd)]>
                                      (acct_symbols st acct);
                       v_assets := acct_assets st acct;
                       v_deposit := acct_deposit_asset_id st acct;
                       v_loaded := acct_data_loaded st acct |}).
  { unfold _handle_spot_event. cbv zeta.
    destruct Hacct as [[-> ->]|(Hne & -> & ->)];
      [rewrite Z.eqb_refl|rewrite (proj2 (Z.eqb_neq _ _) Hne), Z.eqb_refl];
      simpl in Hsd |- *; rewrite Hsd;
      rewrite (proj2 (Z.eqb_neq _ _) Hbid), (proj2 (Z.eqb_neq _ _) Hask); reflexivity. }
  rewrite Hst. unfold _calculate_pip_value.
  rewrite acct_symbols_set, acct_assets_set, acct_deposit_set. cbn [v_symbols v_assets v_deposit].
  rewrite lookup_insert_eq, Hdep, (proj2 (Z.eqb_neq _ _) Hdep0), Hda.
  cbn [quote_asset_id set_prices current_bid current_ask pip_position lot_size].
  destruct (acct_assets st acct !! quote_asset_id sd) as [qa|] eqn:Hq; simpl in Hquote;
    [|contradiction].
  rewrite (proj2 (Z.eqb_neq _ _) Hquote).
  destruct (Qeq_bool (_convert_relative_price bid sd) 0) eqn:E1.
  { apply Qeq_bool_iff, convert_relative_price_zero in E1. contradiction. }
  destruct (Qeq_bool (_convert_relative_price ask sd) 0) eqn:E2.
  { apply Qeq_bool_iff, convert_relative_price_zero in E2. contradiction. }
  destruct (Qeq_bool ((_convert_relative_price bid sd + _convert_relative_price ask sd) / 2) 0)
    eqn:E3.
  { apply Qeq_bool_iff, convert_relative_mid_zero in E3. contradiction. }
  reflexivity.
Qed.

Lemma slave_authorized_copy (fuel : nat) (st : Copier) (signal : TradeSignal) :
  slave_authorized (fst (_copy_to_slave fuel st signal)) = slave_authorized st.
Proof.
  assert (HX : slave_authorized (fst (_calculate_adjusted_volume fuel st (ts_symbol signal)
                                        (ts_volume signal))) = slave_authorized st).
  { rewrite adjusted_volume_state, dynamic_pip_volume_state.
    destruct (_ && _ && _); reflexivity. }
  unfold _copy_to_slave. destruct (negb (slave_authorized st)); [reflexivity|].
  destruct (_calculate_adjusted_volume fuel st (ts_symbol signal) (ts_volume signal))
    as [st1 [v|e]]; simpl in HX |- *; [|exact HX].
  destruct (negb _); exact HX.
Qed.

Lemma slave_authorized_set (st : Copier) (acct : account_type) (v : AccountView) :
  slave_authorized (set_acct st acct v) = slave_authorized st.
Proof. destruct acct; reflexivity. Qed.

(** An order is only sent while [slave_authorized] holds; after a
    disconnection nothing is copied; and the flag is only raised again by the
    slave account's authorization response. *)
Theorem copy_requires_slave_authorization (master_account_id slave_account_id : Z) :
  (forall fuel st signal,
     snd (_copy_to_slave fuel st signal) <> None -> slave_authorized st = true)
  /\ (forall fuel st signal, snd (_copy_to_slave fuel (_on_disconnected st) signal) = None)
  /\ (forall st st',
        copier_step master_account_id slave_account_id st st' ->
        slave_authorized st' = true ->
        slave_authorized st = true
        \/ (slave_account_id <> master_account_id
            /\ st' = _handle_account_auth master_account_id slave_account_id st
                       slave_account_id)).
Proof.
  assert (Hsend : forall fuel st signal,
            snd (_copy_to_slave fuel st signal) <> None -> slave_authorized st = true).
  { intros fuel st signal H. unfold _copy_to_slave in H.
    destruct (slave_authorized st); [reflexivity|]. simpl in H. congruence. }
  split; [exact Hsend|split].
  - intros fuel st signal.
    destruct (snd (_copy_to_slave fuel (_on_disconnected st) signal)) eqn:E; [|reflexivity].
    assert (H : slave_authorized (_on_disconnected st) = true) by (apply (Hsend fuel _ signal); congruence).
    discriminate H.
  - intros st st' Hstep Hauth.
    destruct Hstep as [st acct dep|st acct assets|st acct symbols
                      |st account_id symbol_id bid ask|fuel st signal|st account_id|st].
    + left. unfold _handle_trader_info in Hauth.
      destruct (truthy_z dep); [rewrite slave_authorized_set in Hauth|]; exact Hauth.
    + left. unfold _handle_asset_list in Hauth. destruct assets; [exact Hauth|].
      unfold _check_data_loading_complete in Hauth.
      destruct (_ && _ && _); rewrite !slave_authorized_set in Hauth; exact Hauth.
    + left. unfold _handle_symbol_list in Hauth. destruct symbols; [exact Hauth|].
      unfold _check_data_loading_complete in Hauth.
      destruct (_ && _ && _); rewrite !slave_authorized_set in Hauth; exact Hauth.
    + left. destruct (spot_event_shape master_account_id slave_account_id st account_id
                        symbol_id bid ask) as [E|(acct & sd & b & a & _ & E)];
        rewrite E in Hauth; [exact Hauth|]. rewrite slave_authorized_set in Hauth. exact Hauth.
    + left. rewrite slave_authorized_copy in Hauth. exact Hauth.
    + unfold _handle_account_auth in Hauth |- *.
      destruct (account_id =? master_account_id) eqn:Em; [left; exact Hauth|].
      destruct (account_id =? slave_account_id) eqn:Es; [|left; exact Hauth].
      right. apply Z.eqb_eq in Es. apply Z.eqb_neq in Em. subst account_id.
      split; [exact Em|]. rewrite (proj2 (Z.eqb_neq _ _) Em), Z.eqb_refl. reflexivity.
    + discriminate Hauth.
Qed.

(** ** Witnesses of the further properties *)

Lemma st_pips_loaded_inv : copier_inv st_pips_loaded.
Proof.
  intros acct. destruct acct; (split; [|split; [|split]]); simpl.
  all: try (intros _; split; [discriminate|split; apply map_non_empty_singleton]).
  all: try (intros E; discriminate E).
  all: intros k x Hk; apply lookup_singleton_Some in Hk as [<- <-]; reflexivity.
Qed.

Lemma exec_event_ignored_unless_master_fill_witness :
  (msg_accountId (fill_message 5 3 (buy_deal 1)) <> 7
   \/ (executionType (msg_event (fill_message 5 3 (buy_deal 1))) <> 3
       /\ executionType (msg_event (fill_message 5 3 (buy_deal 1))) <> 4))
  /\ _handle_execution_event 7 (fill_message 5 3 (buy_deal 1)) = Ignored.
Proof.
  split; [left; simpl; lia|].
  apply exec_event_ignored_unless_master_fill. left. simpl. lia.
Defined.

Lemma exec_event_zero_deal_symbol_dropped_witness :
  ev_deal (msg_event (fill_message 7 3 (buy_deal 0))) = Some (buy_deal 0)
  /\ deal_symbolId (buy_deal 0) = 0
  /\ msg_symbolId (fill_message 7 3 (buy_deal 0)) = None
  /\ (_handle_execution_event 7 (fill_message 7 3 (buy_deal 0)) = Ignored
      \/ _handle_execution_event 7 (fill_message 7 3 (buy_deal 0)) = MissingDetails).
Proof.
  split; [reflexivity|]. split; [reflexivity|]. split; [reflexivity|].
  apply (exec_event_zero_deal_symbol_dropped 7 (fill_message 7 3 (buy_deal 0)) (buy_deal 0));
    reflexivity.
Defined.

Lemma exec_open_copied_same_instrument_witness :
  msg_accountId (fill_message 7 3 (buy_deal 1)) = 7
  /\ executionType (msg_event (fill_message 7 3 (buy_deal 1))) = 3
  /\ is_closing_order (msg_event (fill_message 7 3 (buy_deal 1))) = false
  /\ exists signal,
       _handle_execution_event 7 (fill_message 7 3 (buy_deal 1)) = CopyOpen signal
       /\ snd (_copy_to_slave 3 st_pips_loaded signal)
          = Some {| nor_symbolId := deal_symbolId (buy_deal 1);
                    nor_buy := Z.eqb TRADE_SIDE_BUY TRADE_SIDE_BUY;
                    nor_volume := Z.max MIN_LOT_SIZE
                                    (py_int (inject_Z (deal_volume (buy_deal 1)) * (1#2))) |}.
Proof.
  split; [reflexivity|]. split; [reflexivity|]. split; [reflexivity|].
  apply (exec_open_copied_same_instrument 7 3 st_pips_loaded (fill_message 7 3 (buy_deal 1))
           (buy_deal 1) TRADE_SIDE_BUY);
    [reflexivity|left; reflexivity|reflexivity|discriminate|discriminate
    |reflexivity|reflexivity|reflexivity].
Defined.

Lemma close_volume_bounded_witness :
  0 < 1000 /\ 0 <= 1500 /\ (0 <= 1#2)%Q /\ 0 <= 1500
  /\ 0 <= compute_volume_to_close (1#2) 1000 1500 1500 <= 1500
  /\ (compute_volume_to_close (1#2) 1000 1500 1500 = 1500
      \/ 1000 < 1500 - compute_volume_to_close (1#2) 1000 1500 1500).
Proof.
  split; [lia|]. split; [lia|]. split; [discriminate|]. split; [lia|].
  apply (close_volume_bounded (1#2) 1000 1500 1500); [lia|lia|discriminate|lia].
Defined.

Lemma close_without_matching_position_witness :
  (forall p td,
     In p [{| positionId := 9; pos_tradeData := Some {| td_symbolId := 2; td_volume := 1000 |} |}] ->
     pos_tradeData p = Some td -> td_symbolId td <> 1)
  /\ _handle_positions_for_close st_half_ratio
       [{| positionId := 9; pos_tradeData := Some {| td_symbolId := 2; td_volume := 1000 |} |}]
       1 1000 = None.
Proof.
  assert (H : forall p td,
     In p [{| positionId := 9; pos_tradeData := Some {| td_symbolId := 2; td_volume := 1000 |} |}] ->
     pos_tradeData p = Some td -> td_symbolId td <> 1).
  { intros p td [<-|[]] E. injection E as <-. simpl. lia. }
  split; [exact H|]. apply close_without_matching_position. exact H.
Defined.

Lemma open_then_close_full_witness :
  In 1 mapped_symbol_ids /\ 0 < 1000 /\ slave_authorized st_pips_loaded = true /\ 9 <> 0
  /\ _handle_positions_for_close (fst (_copy_to_slave 3 st_pips_loaded (open_signal 1 1000)))
       [{| positionId := 9;
           pos_tradeData := Some {| td_symbolId := 1;
                                    td_volume := Z.max MIN_LOT_SIZE
                                                   (py_int (inject_Z 1000 * (1#2))) |} |}]
       1 1000
     = Some {| cpr_positionId := 9;
               cpr_volume := Z.max MIN_LOT_SIZE (py_int (inject_Z 1000 * (1#2))) |}.
Proof.
  assert (Hmap : In 1 mapped_symbol_ids) by (simpl; auto).
  split; [exact Hmap|]. split; [lia|]. split; [reflexivity|]. split; [lia|].
  exact (open_then_close_full 3 st_pips_loaded 1 1000 9 Hmap ltac:(lia) eq_refl ltac:(lia)).
Defined.

Lemma adjusted_volume_monotone_witness :
  1000 <= 2000 /\ (0 <= 1#100)%Q /\ (-500 <= 2000)%Q
  /\ match snd (_calculate_adjusted_volume 3 st_pips_loaded "EURUSD" 1000),
           snd (_calculate_adjusted_volume 3 st_pips_loaded "EURUSD" 2000) with
     | Ok a1, Ok a2 => a1 <= a2
     | _, _ => False
     end
  /\ _calculate_adjusted_volume_balance (1#100) 1000 (-500)
     <= _calculate_adjusted_volume_balance (1#100) 2000 2000.
Proof.
  split; [lia|]. split; [discriminate|]. split; [discriminate|].
  apply adjusted_volume_monotone; [lia|discriminate|discriminate].
Defined.

Lemma calculate_slave_volume_props_witness :
  (0 <= 1#50)%Q /\ (1#50 <= 1#10)%Q
  /\ (1#100 <= fst (calculate_slave_volume "EURUSD" (1#50)))%Q
  /\ snd (calculate_slave_volume "EURUSD" (1#50)) = select_multiplier "EURUSD"
  /\ (1#10 <= select_multiplier "EURUSD" <= 1#2)%Q
  /\ (select_multiplier "EURUSD" <= MAX_LOT_MULTIPLIER)%Q
  /\ (fst (calculate_slave_volume "EURUSD" (1#50))
      <= fst (calculate_slave_volume "EURUSD" (1#10)))%Q.
Proof.
  split; [discriminate|]. split; [discriminate|].
  apply calculate_slave_volume_props; discriminate.
Defined.

Lemma copier_step_preserves_inv_witness :
  copier_inv st_pips_loaded
  /\ copier_step 7 8 st_pips_loaded (_handle_asset_list st_pips_loaded Slave [eur_proto])
  /\ copier_inv (_handle_asset_list st_pips_loaded Slave [eur_proto]).
Proof.
  assert (Hstep : copier_step 7 8 st_pips_loaded
                    (_handle_asset_list st_pips_loaded Slave [eur_proto]))
    by apply step_asset_list.
  split; [exact st_pips_loaded_inv|]. split; [exact Hstep|].
  exact (copier_step_preserves_inv 7 8 st_pips_loaded _ st_pips_loaded_inv Hstep).
Defined.

Lemma copier_step_grows_witness :
  copier_step 7 8 st_cross (_handle_symbol_list st_cross Master [eurusd_proto])
  /\ forall acct, view_grows (acct_view st_cross acct)
                    (acct_view (_handle_symbol_list st_cross Master [eurusd_proto]) acct).
Proof.
  assert (Hstep : copier_step 7 8 st_cross (_handle_symbol_list st_cross Master [eurusd_proto]))
    by apply step_symbol_list.
  split; [exact Hstep|]. exact (copier_step_grows 7 8 st_cross _ Hstep).
Defined.

Lemma symbol_reload_resets_prices_witness :
  In 1 (map ps_symbolId [eurusd_proto])
  /\ exists sd,
       acct_symbols (_handle_symbol_list st_cross Slave [eurusd_proto]) Slave !! 1 = Some sd
       /\ current_bid sd = 0%Q /\ current_ask sd = 0%Q
       /\ acct_deposit_asset_id (_handle_symbol_list st_cross Slave [eurusd_proto]) Slave
          = acct_deposit_asset_id st_cross Slave
       /\ acct_assets (_handle_symbol_list st_cross Slave [eurusd_proto]) Slave
          = acct_assets st_cross Slave
       /\ _calculate_pip_value (_handle_symbol_list st_cross Slave [eurusd_proto]) 1 Slave
          = match acct_deposit_asset_id st_cross Slave with
            | Some dep =>
                if dep =? 0 then None else
                match acct_assets st_cross Slave !! dep with
                | Some deposit_asset =>
                    if asset_id (default deposit_asset
                                   (acct_assets st_cross Slave !! quote_asset_id sd))
                       =? asset_id deposit_asset
                    then Some (1 / Qpower (inject_Z 10) (pip_position sd)
                               * inject_Z (lot_size sd))%Q
                    else None
                | None => None
                end
            | None => None
            end.
Proof.
  assert (Hin : In 1 (map ps_symbolId [eurusd_proto])) by (simpl; auto).
  split; [exact Hin|].
  exact (symbol_reload_resets_prices st_cross Slave [eurusd_proto] 1 Hin).
Defined.

Lemma spot_event_gives_pip_value_witness :
  acct_symbols st_cross Slave !! 1 = Some (eurusd_ref 100000 100)
  /\ acct_deposit_asset_id st_cross Slave = Some 11
  /\ acct_assets st_cross Slave !! 11 = Some eur
  /\ asset_id (default eur (acct_assets st_cross Slave !! quote_asset_id (eurusd_ref 100000 100)))
     <> asset_id eur
  /\ _calculate_pip_value (_handle_spot_event 7 8 st_cross 8 1 (Some 110000) (Some 110002)) 1 Slave
     = Some (1 / Qpower (inject_Z 10) (pip_position (eurusd_ref 100000 100))
             / ((_convert_relative_price 110000 (eurusd_ref 100000 100)
                 + _convert_relative_price 110002 (eurusd_ref 100000 100)) / 2)
             * inject_Z (lot_size (eurusd_ref 100000 100)))%Q.
Proof.
  assert (Hsd : acct_symbols st_cross Slave !! 1 = Some (eurusd_ref 100000 100))
    by reflexivity.
  assert (Hdep : acct_deposit_asset_id st_cross Slave = Some 11) by reflexivity.
  assert (Hda : acct_assets st_cross Slave !! 11 = Some eur) by reflexivity.
  assert (Hq : asset_id (default eur (acct_assets st_cross Slave
                                       !! quote_asset_id (eurusd_ref 100000 100)))
               <> asset_id eur) by (vm_compute; discriminate).
  split; [exact Hsd|]. split; [exact Hdep|]. split; [exact Hda|]. split; [exact Hq|].
  apply (spot_event_gives_pip_value 7 8 st_cross Slave 8 1 110000 110002 11
           (eurusd_ref 100000 100) eur);
    [right; split; [lia|split; reflexivity]|exact Hsd|exact Hdep|lia|exact Hda|exact Hq
    |lia|lia|lia].
Defined.
